(** * express-ipfilter: the IP filtering middleware of [src/ipfilter.js]

    A shallow embedding of the middleware factory [ipfilter(ips, opts)] and of
    the functions it closes over ([getClientIp], [matchClientIp], [testIp],
    [testExplicitIp], [testCidrBlock], [testRange], [error]), followed by the
    properties of the decision it takes.

    JavaScript values that reach the filter are strings or [undefined]; the
    rule source is a list or a callback; the callback may answer differently at
    every call, so the number of calls made so far is threaded through the
    decision as state, together with the messages handed to the log sink. *)

From Stdlib Require Import List String Ascii Bool ZArith Arith Lia Permutation.
Import ListNotations.
Local Open Scope string_scope.

(** ** JavaScript strings *)

Module Js.

(** A value that is either a string or [undefined]: a header value, the
    peer address, an element of an array, a candidate address. *)
Inductive value : Type :=
| Undefined
| Str (s : string).

(** [a === b] on such values. *)
Definition strictEq (a b : value) : bool :=
  match a, b with
  | Undefined, Undefined => true
  | Str x, Str y => String.eqb x y
  | _, _ => false
  end.

(** [a != ''] (loose inequality with the empty string): [undefined] is not
    loosely equal to a string, two strings are compared by content. *)
Definition looseNeqEmpty (a : value) : bool :=
  match a with
  | Undefined => true
  | Str s => negb (String.eqb s "")
  end.

(** Truthiness: [undefined] and the empty string are falsy. *)
Definition truthy (a : value) : bool :=
  match a with
  | Undefined => false
  | Str s => negb (String.eqb s "")
  end.

(** [s.indexOf(sub)]: position of the first occurrence, [-1] when there is
    none. *)
Fixpoint indexOf (sub s : string) : Z :=
  if String.prefix sub s then 0%Z
  else match s with
       | EmptyString => (-1)%Z
       | String _ s' =>
           let r := indexOf sub s' in
           if (r =? -1)%Z then (-1)%Z else (r + 1)%Z
       end.

(** [~n] on a number, and the truthiness of a number. *)
Definition bitNot (n : Z) : Z := Z.lnot n.
Definition truthyNum (n : Z) : bool := negb (n =? 0)%Z.

(** [s.split(sep)] for a non-empty separator.  [skip] counts the characters
    of a separator just matched that are still to be dropped, [cur] is the
    piece being read. *)
Fixpoint splitFrom (sep s : string) (skip : nat) (cur : string) : list string :=
  match s with
  | EmptyString => [cur]
  | String c s' =>
      match skip with
      | S k => splitFrom sep s' k cur
      | O =>
          if String.prefix sep s
          then cur :: splitFrom sep s' (String.length sep - 1) ""
          else splitFrom sep s' 0 (cur ++ String c "")
      end
  end.

Definition split (sep s : string) : list string := splitFrom sep s 0 "".

(** [arr[i]] on an array of strings: [undefined] out of range. *)
Definition nth (i : nat) (arr : list string) : value :=
  match nth_error arr i with
  | Some s => Str s
  | None => Undefined
  end.

(** [s[i]] on a string: the one-character string at [i], [undefined] out of
    range. *)
Definition charAt (i : nat) (s : string) : value :=
  match String.get i s with
  | Some c => Str (String c "")
  | None => Undefined
  end.

(** [arr.join(',')]: [undefined] elements are written as the empty string. *)
Definition show (a : value) : string :=
  match a with
  | Undefined => ""
  | Str s => s
  end.

Fixpoint join (sep : string) (arr : list value) : string :=
  match arr with
  | [] => ""
  | [a] => show a
  | a :: rest => show a ++ sep ++ join sep rest
  end.

(** [s.toLowerCase()] on the ASCII letters. *)
Definition lowerChar (c : ascii) : ascii :=
  let n := nat_of_ascii c in
  if (65 <=? n)%nat && (n <=? 90)%nat then ascii_of_nat (n + 32) else c.

Fixpoint toLowerCase (s : string) : string :=
  match s with
  | EmptyString => EmptyString
  | String c s' => String (lowerChar c) (toLowerCase s')
  end.

(** [_.some(arr)] and [_.every(arr)] with the identity predicate, on an array
    of booleans and [undefined]s. *)
Definition truthyRes (r : option bool) : bool :=
  match r with
  | Some b => b
  | None => false
  end.

Definition some (arr : list (option bool)) : bool := existsb truthyRes arr.
Definition every (arr : list (option bool)) : bool := forallb truthyRes arr.

End Js.


(** ** Data model *)

(** One configured rule: a string (an address or a CIDR block), an array of
    strings (a range), or a value that is neither a string nor an object (a
    number or a boolean), for which [testIp] has no branch. *)
Inductive token : Type :=
| TString (s : string)
| TArray (elems : list string)
| TOther.

(** The first argument of [ipfilter]: an array, or a function returning one.
    The answer of a callback may depend on how many times it has been called.
    A rule source that is left out ([ips || false]) behaves as the empty array
    at each of its uses ([!_ips], [_.invoke], [_.filter]) and is written
    [Static []]. *)
Inductive ruleSource : Type :=
| Static (ips : list token)
| Callback (f : nat -> list token).

Record request : Type := mkRequest {
  url : string;
  headers : string -> Js.value;
  remoteAddress : Js.value
}.

(** What the middleware does last: [next()], [error(ips, next)], or an
    exception that leaves it. *)
Inductive outcome : Type :=
| CallNext
| CallError (ips : list Js.value)
| TypeError.

(** [settings], after [_.defaults]. *)
Record settings : Type := mkSettings {
  mode : string;
  log : bool;
  logLevel : Js.value;
  allowedHeaders : list string;
  excluding : list string;
  detectIp : request -> option (list Js.value)
}.

(** [opts]: every option may be left out. *)
Record options : Type := mkOptions {
  optMode : option string;
  optLog : option bool;
  optLogLevel : option string;
  optAllowedHeaders : option (list string);
  optExcluding : option (list string);
  optDetectIp : option (request -> option (list Js.value))
}.

(** The two policy directions and the way the options spell them. *)
Inductive Mode : Type := Allow | Deny.

Definition modeName (m : Mode) : string :=
  match m with
  | Allow => "allow"
  | Deny => "deny"
  end.

Definition isAllow (m : Mode) : bool :=
  match m with
  | Allow => true
  | Deny => false
  end.

(** ** The modules the filter requires

    [ip], [range_check] and the regular expressions of the language are not
    part of the repository; the filter is parameterised by them. Their calls
    are taken to return a value: the exceptions modelled are those of the
    filter's own code. In particular [toLong] has a value on [undefined],
    where the package throws: what is proved of the matching functions speaks
    of the program for the candidates that are strings. *)

Class IpUtil : Type := {
  isV4Format : Js.value -> bool;
  isV6Format : Js.value -> bool;
  toLong : Js.value -> Z
}.

Class RangeCheck : Type := {
  validRange : string -> bool;
  inRange : Js.value -> string -> bool
}.

Class RegExpEngine : Type := {
  regexTest : string -> string -> bool
}.

(** ** State threaded through one decision *)

Record state : Type := mkState {
  calls : nat;
  logged : list string
}.

Definition M (A : Type) : Type := state -> A * state.

Definition ret {A : Type} (a : A) : M A := fun st => (a, st).

Definition bind {A B : Type} (m : M A) (k : A -> M B) : M B :=
  fun st => let (a, st') := m st in k a st'.

Notation "x <- m ;; k" := (bind m (fun x => k))
  (at level 61, m at next level, right associativity).
Notation "m ;;; k" := (bind m (fun _ => k))
  (at level 61, right associativity).

Fixpoint mapM {A B : Type} (f : A -> M B) (l : list A) : M (list B) :=
  match l with
  | [] => ret []
  | a :: rest =>
      b <- f a ;;
      bs <- mapM f rest ;;
      ret (b :: bs)
  end.

Definition when (c : bool) (m : M unit) : M unit :=
  if c then m else ret tt.

(** [settings.logF(message)]. *)
Definition logF (message : string) : M unit :=
  fun st => (tt, mkState (calls st) (logged st ++ [message])).

(** Exceptions in the address resolver. *)
Fixpoint mapOpt {A B : Type} (f : A -> option B) (l : list A) : option (list B) :=
  match l with
  | [] => Some []
  | a :: rest =>
      match f a with
      | None => None
      | Some b =>
          match mapOpt f rest with
          | None => None
          | Some bs => Some (b :: bs)
          end
      end
  end.

(** ** The filter *)

Section Filter.

Context {ipUtil : IpUtil} {rangeCheck : RangeCheck} {regExp : RegExpEngine}.

(** [getClientIp] uses [settings.allowedHeaders] only. *)
Section Resolver.

Variable allowed : list string.

(** The [_.reduce] over the allowed headers, started at [''] (lines 68-79). *)
Definition headerStep (req : request) (acc : Js.value) (header : string) : Js.value :=
  let testIp := headers req header in
  if Js.looseNeqEmpty testIp then testIp else acc.

Definition headerIp (req : request) : Js.value :=
  fold_left (headerStep req) allowed (Js.Str "").

(** [fmt(a) && ~a.indexOf(sub)]: the right operand is evaluated only when the
    left one holds, and calling [indexOf] on [undefined] throws. *)
Definition formatAndContains (fmt : bool) (a : Js.value) (sub : string) : option bool :=
  if fmt then
    match a with
    | Js.Undefined => None
    | Js.Str s => Some (Js.truthyNum (Js.bitNot (Js.indexOf sub s)))
    end
  else Some false.

(** First [if] of the [map] callback (lines 94-96). *)
Definition stripMapped (ipAddress : Js.value) : option Js.value :=
  match formatAndContains (isV6Format ipAddress) ipAddress "::ffff" with
  | None => None
  | Some true =>
      match ipAddress with
      | Js.Str s => Some (Js.nth 1 (Js.split "::ffff:" s))
      | Js.Undefined => None
      end
  | Some false => Some ipAddress
  end.

(** Second [if] of the [map] callback (lines 98-100). *)
Definition stripPort (ipAddress : Js.value) : option Js.value :=
  match formatAndContains (isV4Format ipAddress) ipAddress ":" with
  | None => None
  | Some true =>
      match ipAddress with
      | Js.Str s => Some (Js.nth 0 (Js.split ":" s))
      | Js.Undefined => None
      end
  | Some false => Some ipAddress
  end.

Definition normalizeIp (ipAddress : Js.value) : option Js.value :=
  match stripMapped ipAddress with
  | None => None
  | Some a => stripPort a
  end.

(** The addresses before the [map] (lines 66-91). The second test on the
    length is the early [return] of line 89. *)
Definition splitHeader (h : Js.value) : list Js.value :=
  match h with
  | Js.Str s => if Js.truthy h then map Js.Str (Js.split "," s) else []
  | Js.Undefined => []
  end.

Definition candidateAddresses (req : request) : list Js.value :=
  let ipAddresses := splitHeader (headerIp req) in
  if (List.length ipAddresses =? 0)%nat then [remoteAddress req] else ipAddresses.

Definition getClientIp (req : request) : option (list Js.value) :=
  let ipAddresses := candidateAddresses req in
  if (List.length ipAddresses =? 0)%nat then Some ipAddresses
  else mapOpt normalizeIp ipAddresses.

End Resolver.

Section Closure.

Variable ips : ruleSource.
Variable conf : settings.

(** [getIps()]: the array itself, or one more call of the callback. *)
Definition getIps : M (list token) :=
  match ips with
  | Static l => ret l
  | Callback f => fun st => (f (calls st), mkState (S (calls st)) (logged st))
  end.

Definition testExplicitIp (ip : Js.value) (constraint mode : string) : bool :=
  if Js.strictEq ip (Js.Str constraint)
  then String.eqb mode "allow"
  else String.eqb mode "deny".

Definition testCidrBlock (ip : Js.value) (constraint mode : string) : bool :=
  if inRange ip constraint
  then String.eqb mode "allow"
  else String.eqb mode "deny".

(** [constraint.length > 1] and [constraint[i]] on a rule of any shape: a
    string is indexed by character, a number or boolean has neither. *)
Definition lengthAbove1 (constraint : token) : bool :=
  match constraint with
  | TString s => (1 <? String.length s)%nat
  | TArray l => (1 <? List.length l)%nat
  | TOther => false
  end.

Definition elemAt (i : nat) (constraint : token) : Js.value :=
  match constraint with
  | TString s => Js.charAt i s
  | TArray l => Js.nth i l
  | TOther => Js.Undefined
  end.

(** The predicate of the [_.filter] in [testRange] (lines 154-163). *)
Definition rangeFilter (ip : Js.value) (constraint : token) : bool :=
  if lengthAbove1 constraint then
    let startIp := toLong (elemAt 0 constraint) in
    let endIp := toLong (elemAt 1 constraint) in
    let longIp := toLong ip in
    (startIp <=? longIp)%Z && (longIp <=? endIp)%Z
  else Js.strictEq ip (elemAt 0 constraint).

(** [testRange]: its [constraint] argument is shadowed by the parameter of the
    filter, which runs over [getIps()]. *)
Definition testRange (ip : Js.value) (constraint : list string) (mode : string) : M bool :=
  rules <- getIps ;;
  let filteredSet := filter (rangeFilter ip) rules in
  ret (if (0 <? List.length filteredSet)%nat
       then String.eqb mode "allow"
       else String.eqb mode "deny").

(** [testIp], with [this] as first argument; [None] is [undefined]. *)
Definition testIp (constraint : token) (ip : Js.value) (mode : string) : M (option bool) :=
  match constraint with
  | TString s =>
      ret (Some (if validRange s
                 then testCidrBlock ip s mode
                 else testExplicitIp ip s mode))
  | TArray l => b <- testRange ip l mode ;; ret (Some b)
  | TOther => ret None
  end.

(** [_.invoke(getIps(), testIp, ip, mode)]. *)
Definition invokeTestIp (ip : Js.value) (mode : string) : M (list (option bool)) :=
  rules <- getIps ;;
  mapM (fun constraint => testIp constraint ip mode) rules.

Definition matchClientIp (ip : Js.value) : M bool :=
  let mode := Js.toLowerCase (mode conf) in
  result <- invokeTestIp ip mode ;;
  ret (if String.eqb mode "allow" then Js.some result else Js.every result).

(** The message of the [IpDeniedError] that [error] hands to [next]. *)
Definition error (addresses : list Js.value) : string :=
  "Access denied to IP address: " ++ Js.join "," addresses.

Definition excludedBy (req : request) : list string :=
  filter (fun exclude => regexTest exclude (url req)) (excluding conf).

Definition grantsLogged : bool :=
  log conf && negb (Js.strictEq (logLevel conf) (Js.Str "deny")).

Definition denialsLogged : bool :=
  log conf && negb (Js.strictEq (logLevel conf) (Js.Str "allow")).

(** Lines 192-223: what follows the test of the excluded paths. *)
Definition decide (req : request) : M outcome :=
  _ips <- getIps ;;
  if (List.length _ips =? 0)%nat then
    if String.eqb (mode conf) "allow"
    then ret (CallError [Js.Str "0.0.0.0/0"])
    else ret CallNext
  else
    match detectIp conf req with
    | None => ret TypeError
    | Some addresses =>
        matchResults <- mapM matchClientIp addresses ;;
        if forallb (fun b : bool => b) matchResults then
          when grantsLogged
            (logF ("Access granted to IP address: " ++ Js.join "," addresses)) ;;;
          ret CallNext
        else
          when denialsLogged
            (logF ("Access denied to IP address: " ++ Js.join "," addresses)) ;;;
          ret (CallError addresses)
    end.

(** The function [ipfilter] returns (lines 177-224). *)
Definition middleware (req : request) : M outcome :=
  if (0 <? List.length (excluding conf))%nat then
    let results := excludedBy req in
    if (0 <? List.length results)%nat then
      when grantsLogged
        (logF ("Access granted for excluded path: " ++ Js.show (Js.nth 0 results))) ;;;
      ret CallNext
    else decide req
  else decide req.

End Closure.

(** [_.defaults(opts || {}, {...})]. *)
Definition orDefault {A : Type} (o : option A) (d : A) : A :=
  match o with
  | Some a => a
  | None => d
  end.

Definition defaults (opts : options) : settings :=
  let allowed := orDefault (optAllowedHeaders opts) [] in
  mkSettings
    (orDefault (optMode opts) "deny")
    (orDefault (optLog opts) true)
    (match optLogLevel opts with Some l => Js.Str l | None => Js.Undefined end)
    allowed
    (orDefault (optExcluding opts) [])
    (orDefault (optDetectIp opts) (getClientIp allowed)).

Definition noOptions : options := mkOptions None None None None None None.

Definition ipfilter (ips : ruleSource) (opts : options) : request -> M outcome :=
  middleware ips (defaults opts).

End Filter.

(** The state before a first decision, the number of calls of the callback a
    computation makes, and its result. *)
Definition initial : state := mkState 0 [].

Definition callsMade {A : Type} (m : M A) (st : state) : nat :=
  calls (snd (m st)) - calls st.

Definition result {A : Type} (m : M A) (st : state) : A := fst (m st).

(** ** Stand-ins for the required modules

    Simple functions with the types of the interfaces, on which the filter can
    be run. [toLong] reads a dotted quad; a CIDR block is a string with a [/]
    and holds the addresses that share its leading bits; a string is
    IPv4-formatted when it is four numbers of one to three digits separated
    by dots and nothing else, as the anchored expression of the package has
    it, and IPv6-formatted when it has a colon or is IPv4-formatted; a
    pattern is searched for as it is written. They stand for the packages
    only on the inputs of the examples below. *)

Module Sample.

Definition digitValue (c : ascii) : option Z :=
  let n := nat_of_ascii c in
  if (48 <=? n)%nat && (n <=? 57)%nat then Some (Z.of_nat (n - 48)) else None.

(** The number a string of digits starts with ([0] when it starts with
    none). *)
Fixpoint leadingNumber (s : string) (acc : Z) : Z :=
  match s with
  | EmptyString => acc
  | String c s' =>
      match digitValue c with
      | Some d => leadingNumber s' (10 * acc + d)%Z
      | None => acc
      end
  end.

Definition dottedToLong (a : Js.value) : Z :=
  match a with
  | Js.Undefined => 0%Z
  | Js.Str s =>
      (fold_left (fun ipl octet => ipl * 256 + leadingNumber octet 0)
                 (Js.split "." s) 0 mod 2 ^ 32)%Z
  end.

Definition digitOrDot (c : ascii) : bool :=
  match digitValue c with
  | Some _ => true
  | None => Ascii.eqb c "."
  end.

Definition octetLike (s : string) : bool :=
  (1 <=? String.length s)%nat && (String.length s <=? 3)%nat.

Definition dottedQuad (a : Js.value) : bool :=
  match a with
  | Js.Undefined => false
  | Js.Str s =>
      forallb digitOrDot (list_ascii_of_string s) &&
      match Js.split "." s with
      | [a1; a2; a3; a4] => octetLike a1 && octetLike a2 && octetLike a3 && octetLike a4
      | _ => false
      end
  end.

Definition colonOrDottedQuad (a : Js.value) : bool :=
  match a with
  | Js.Undefined => false
  | Js.Str s => negb (Js.indexOf ":" s =? -1)%Z || dottedQuad a
  end.

Definition isCidr (s : string) : bool := negb (Js.indexOf "/" s =? -1)%Z.

Definition inCidr (a : Js.value) (block : string) : bool :=
  match Js.split "/" block with
  | [base; bits] =>
      let drop := (32 - leadingNumber bits 0)%Z in
      (Z.shiftr (dottedToLong a) drop =? Z.shiftr (dottedToLong (Js.Str base)) drop)%Z
  | _ => Js.strictEq a (Js.Str block)
  end.

Definition literalSearch (pattern text : string) : bool :=
  negb (Js.indexOf pattern text =? -1)%Z.

Definition ipUtil : IpUtil :=
  {| isV4Format := dottedQuad; isV6Format := colonOrDottedQuad; toLong := dottedToLong |}.

Definition rangeCheck : RangeCheck :=
  {| validRange := isCidr; inRange := inCidr |}.

Definition regExp : RegExpEngine :=
  {| regexTest := literalSearch |}.

(** A request from [peer] for [path], with the given headers. *)
Definition lookup (hs : list (string * string)) (name : string) : Js.value :=
  match find (fun kv => String.eqb (fst kv) name) hs with
  | Some kv => Js.Str (snd kv)
  | None => Js.Undefined
  end.

Definition requestFrom (peer path : string) (hs : list (string * string)) : request :=
  mkRequest path (lookup hs) (Js.Str peer).

Definition withMode (m : string) : options :=
  mkOptions (Some m) None None None None None.


Definition forwarded (peer path addresses : string) : request :=
  requestFrom peer path [("x-forwarded-for", addresses)].

(** The filter on the stand-ins, from the initial state. *)
Definition run (ips : ruleSource) (opts : options) (req : request) : outcome :=
  result (@ipfilter ipUtil rangeCheck regExp ips opts req) initial.

End Sample.

(** ** Notions used in the statements *)

(** A rule source that gives the same rules whenever it is asked: an array, or
    a callback whose answer does not change. *)
Definition stable (ips : ruleSource) (rules : list token) : Prop :=
  forall st, fst (getIps ips st) = rules.

(** A computation whose result does not depend on the state it starts in. *)
Definition constantResult {A : Type} (m : M A) : Prop :=
  forall st st', fst (m st) = fst (m st').



(** The header search as the specification words it: the value of the first
    allowed header whose value is a non-empty string, [''] when there is
    none. *)
Fixpoint firstNonEmptyHeader (req : request) (allowed : list string) : Js.value :=
  match allowed with
  | [] => Js.Str ""
  | header :: rest =>
      if Js.truthy (headers req header) then headers req header
      else firstNonEmptyHeader req rest
  end.

(** Range membership as the specification words it: a range of two bounds
    holds the addresses between them, a range of one bound holds that address,
    and only ranges are looked at. *)
Definition rangeHolds {ipUtil : IpUtil} (ip : Js.value) (c : token) : bool :=
  match c with
  | TArray [lo; hi] =>
      (toLong (Js.Str lo) <=? toLong ip)%Z && (toLong ip <=? toLong (Js.Str hi))%Z
  | TArray [only] => Js.strictEq ip (Js.Str only)
  | _ => false
  end.

Definition memberOfRanges {ipUtil : IpUtil} (ip : Js.value) (rules : list token) : bool :=
  existsb (rangeHolds ip) rules.

(** A rule set made of ranges of one or two bounds. *)
Definition wellFormedRange (c : token) : bool :=
  match c with
  | TArray [_] | TArray [_; _] => true
  | _ => false
  end.

(** The settings with another spelling of the mode. *)
Definition setMode (m : string) (conf : settings) : settings :=
  mkSettings m (log conf) (logLevel conf) (allowedHeaders conf) (excluding conf)
             (detectIp conf).

(** A callback that gives the same rules at every call. *)
Definition constantCallback (rules : list token) : ruleSource :=
  Callback (fun _ => rules).

(** The settings with other logging options. *)
Definition setLogging (enabled : bool) (level : Js.value) (conf : settings) : settings :=
  mkSettings (mode conf) enabled level (allowedHeaders conf) (excluding conf)
             (detectIp conf).


(** The result of [testIp] on one rule, given whether [testRange] finds the
    address in the rule set: with a rule source that always gives the same
    rules, this is all a rule's result depends on. *)
Definition ruleResult {rangeCheck : RangeCheck}
  (member : bool) (ip : Js.value) (mode : string) (c : token) : option bool :=
  match c with
  | TString s =>
      Some (if validRange s then testCidrBlock ip s mode else testExplicitIp ip s mode)
  | TArray _ => Some (if member then String.eqb mode "allow" else String.eqb mode "deny")
  | TOther => None
  end.

(** * Properties *)

(** ** The examples of the specification, on the stand-ins *)

Example split_comma : Js.split "," "1.1.1.1,2.2.2.2" = ["1.1.1.1"; "2.2.2.2"].
Proof. reflexivity. Qed.

Example split_marker : Js.split "::ffff:" "::ffff:127.0.0.1" = [""; "127.0.0.1"].
Proof. reflexivity. Qed.

Example split_without_separator : Js.split ":" "abc" = ["abc"].
Proof. reflexivity. Qed.

Example split_keeps_empty_pieces : Js.split "," "a,,b," = ["a"; ""; "b"; ""].
Proof. reflexivity. Qed.

Example indexOf_marker : Js.indexOf "::ffff" "0::ffff:1.2.3.4" = 1%Z.
Proof. reflexivity. Qed.

Example toLowerCase_mixed : Js.toLowerCase "AlLoW" = "allow".
Proof. reflexivity. Qed.

Example exact_allow_listed :
  Sample.run (Static [TString "127.0.0.1"]) (Sample.withMode "allow")
             (Sample.requestFrom "127.0.0.1" "/" []) = CallNext.
Proof. reflexivity. Qed.

Example exact_allow_unlisted :
  Sample.run (Static [TString "127.0.0.1"]) (Sample.withMode "allow")
             (Sample.requestFrom "10.0.0.1" "/" []) = CallError [Js.Str "10.0.0.1"].
Proof. reflexivity. Qed.

Example cidr_deny_inside :
  Sample.run (Static [TString "10.0.0.0/24"]) (Sample.withMode "deny")
             (Sample.requestFrom "10.0.0.5" "/" []) = CallError [Js.Str "10.0.0.5"].
Proof. reflexivity. Qed.

Example cidr_deny_outside :
  Sample.run (Static [TString "10.0.0.0/24"]) (Sample.withMode "deny")
             (Sample.requestFrom "10.1.0.5" "/" []) = CallNext.
Proof. reflexivity. Qed.

Example range_allow_inside :
  Sample.run (Static [TArray ["10.0.0.1"; "10.0.0.10"]]) (Sample.withMode "allow")
             (Sample.requestFrom "10.0.0.5" "/" []) = CallNext.
Proof. reflexivity. Qed.

Example range_allow_outside :
  Sample.run (Static [TArray ["10.0.0.1"; "10.0.0.10"]]) (Sample.withMode "allow")
             (Sample.requestFrom "10.0.0.20" "/" []) = CallError [Js.Str "10.0.0.20"].
Proof. reflexivity. Qed.

Example mapped_address_allowed :
  Sample.run (Static [TString "127.0.0.1"]) (Sample.withMode "allow")
             (Sample.requestFrom "::ffff:127.0.0.1" "/" []) = CallNext.
Proof. reflexivity. Qed.

Example default_mode_is_deny :
  Sample.run (Static [TString "127.0.0.1"]) noOptions
             (Sample.requestFrom "127.0.0.1" "/" []) = CallError [Js.Str "127.0.0.1"].
Proof. reflexivity. Qed.

Example denial_message :
  error [Js.Str "127.0.0.1"; Js.Str "8.8.8.8"] = "Access denied to IP address: 127.0.0.1,8.8.8.8".
Proof. reflexivity. Qed.

(** ** The state monad *)

Lemma bind_unfold {A B : Type} (m : M A) (k : A -> M B) (st : state) :
  bind m k st = k (fst (m st)) (snd (m st)).
Proof. unfold bind. destruct (m st); reflexivity. Qed.

Lemma constantResult_ret {A : Type} (a : A) : constantResult (ret a).
Proof. intros st st'. reflexivity. Qed.

Lemma constantResult_bind {A B : Type} (m : M A) (k : A -> M B) :
  constantResult m ->
  (forall a st st', fst (k a st) = fst (k a st')) ->
  constantResult (bind m k).
Proof.
  intros Hm Hk st st'. rewrite !bind_unfold.
  rewrite (Hm st st'). apply Hk.
Qed.

Lemma mapM_constant {A B : Type} (f : A -> M B) (l : list A) :
  (forall a, constantResult (f a)) ->
  forall st st0, fst (mapM f l st) = map (fun a => fst (f a st0)) l.
Proof.
  intros Hf. induction l as [|a rest IH]; intros st st0; simpl.
  - reflexivity.
  - rewrite bind_unfold, bind_unfold. simpl.
    rewrite (Hf a st st0). f_equal. apply IH.
Qed.

Lemma mapM_length {A B : Type} (f : A -> M B) (l : list A) (st : state) :
  List.length (fst (mapM f l st)) = List.length l.
Proof.
  revert st. induction l as [|a rest IH]; intros st; simpl.
  - reflexivity.
  - rewrite bind_unfold, bind_unfold. simpl. now rewrite IH.
Qed.

(** ** The rule source *)

Lemma stable_static (rules : list token) : stable (Static rules) rules.
Proof. intros st. reflexivity. Qed.

Lemma stable_callback (rules : list token) : stable (Callback (fun _ => rules)) rules.
Proof. intros st. reflexivity. Qed.

Lemma getIps_constant (ips : ruleSource) (rules : list token) :
  stable ips rules -> constantResult (getIps ips).
Proof. intros H st st'. now rewrite !H. Qed.

Lemma getIps_static_state (rules : list token) (st : state) :
  snd (getIps (Static rules) st) = st.
Proof. reflexivity. Qed.


Section Evaluation.

Context {ipUtil : IpUtil} {rangeCheck : RangeCheck} {regExp : RegExpEngine}.
Variable ips : ruleSource.
Variable rules : list token.
Hypothesis ips_stable : stable ips rules.

Lemma testRange_result (ip : Js.value) (l : list string) (mode : string) (st : state) :
  fst (testRange ips ip l mode st) =
  if existsb (rangeFilter ip) rules
  then String.eqb mode "allow" else String.eqb mode "deny".
Proof.
  unfold testRange. rewrite bind_unfold, ips_stable. simpl.
  assert (E : (0 <? List.length (filter (rangeFilter ip) rules))%nat
              = existsb (rangeFilter ip) rules).
  { clear. induction rules as [|c rest IH]; simpl; [reflexivity|].
    destruct (rangeFilter ip c); simpl; [reflexivity | exact IH]. }
  now rewrite E.
Qed.

Lemma testIp_constant (c : token) (ip : Js.value) (mode : string) :
  constantResult (testIp ips c ip mode).
Proof.
  intros st st'. destruct c as [s|l|]; simpl; try reflexivity.
  rewrite !bind_unfold. simpl. now rewrite !testRange_result.
Qed.

Lemma invokeTestIp_result (ip : Js.value) (mode : string) (st st0 : state) :
  fst (invokeTestIp ips ip mode st) =
  map (fun c => fst (testIp ips c ip mode st0)) rules.
Proof.
  unfold invokeTestIp. rewrite bind_unfold, ips_stable.
  apply mapM_constant. intros c. apply testIp_constant.
Qed.

Lemma matchClientIp_constant (conf : settings) (ip : Js.value) :
  constantResult (matchClientIp ips conf ip).
Proof.
  intros st st'. unfold matchClientIp. rewrite !bind_unfold. simpl.
  now rewrite (invokeTestIp_result ip _ st initial),
              (invokeTestIp_result ip _ st' initial).
Qed.

End Evaluation.

(** ** Rules: one rule, and the rules together *)

Section Rules.

Context {ipUtil : IpUtil} {rangeCheck : RangeCheck} {regExp : RegExpEngine}.

(** C3. For a rule that is a string, [testIp] answers whether
    (the address matches the rule) = (the mode is allow), where the address
    matches a valid CIDR block when it is inside it, and any other string when
    it is equal to it. *)
Theorem C3_string_rule_evaluation
  (ips : ruleSource) (ip : Js.value) (s : string) (m : Mode) (st : state) :
  result (testIp ips (TString s) ip (modeName m)) st =
  Some (Bool.eqb (if validRange s then inRange ip s else Js.strictEq ip (Js.Str s))
                 (isAllow m)).
Proof.
  unfold result, testIp, testCidrBlock, testExplicitIp. simpl.
  destruct (validRange s).
  - destruct (inRange ip s), m; reflexivity.
  - destruct (Js.strictEq ip (Js.Str s)), m; reflexivity.
Qed.

(** Whatever the rule source, [matchClientIp] is [_.some] of the results of
    the rules when the lower-cased mode is allow, and [_.every] of them
    otherwise. *)
Lemma matchClientIp_combines (ips : ruleSource) (conf : settings) (ip : Js.value) (st : state) :
  result (matchClientIp ips conf ip) st =
  let lower := Js.toLowerCase (mode conf) in
  if String.eqb lower "allow"
  then Js.some (result (invokeTestIp ips ip lower) st)
  else Js.every (result (invokeTestIp ips ip lower) st).
Proof.
  unfold result, matchClientIp. rewrite bind_unfold. reflexivity.
Qed.

Lemma some_exists (l : list (option bool)) :
  Js.some l = true <-> exists r, In r l /\ r = Some true.
Proof.
  unfold Js.some. rewrite existsb_exists. split.
  - intros [r [Hin Hr]]. exists r. split; [exact Hin|].
    destruct r as [[|]|]; simpl in Hr; congruence.
  - intros [r [Hin Hr]]. exists r. subst r. now split.
Qed.

Lemma every_forall (l : list (option bool)) :
  Js.every l = true <-> forall r, In r l -> r = Some true.
Proof.
  unfold Js.every. rewrite forallb_forall. split.
  - intros H r Hin. specialize (H r Hin).
    destruct r as [[|]|]; simpl in H; congruence.
  - intros H r Hin. now rewrite (H r Hin).
Qed.

(** C2. With a rule set [rules], an address is accepted under allow exactly
    when some rule evaluates to true, and under deny exactly when every rule
    does. *)
Theorem C2_rules_combined_by_mode
  (ips : ruleSource) (rules : list token) (conf : settings) (m : Mode)
  (ip : Js.value) (st : state) :
  stable ips rules ->
  Js.toLowerCase (mode conf) = modeName m ->
  match m with
  | Allow =>
      result (matchClientIp ips conf ip) st = true <->
      exists c, In c rules /\ result (testIp ips c ip "allow") st = Some true
  | Deny =>
      result (matchClientIp ips conf ip) st = true <->
      forall c, In c rules -> result (testIp ips c ip "deny") st = Some true
  end.
Proof.
  intros Hstable Hmode.
  rewrite matchClientIp_combines. cbv zeta. rewrite Hmode.
  unfold result. rewrite (invokeTestIp_result ips rules Hstable ip _ st st).
  destruct m; simpl modeName; simpl String.eqb; cbv iota.
  - rewrite some_exists. split.
    + intros [r [Hin Hr]]. apply in_map_iff in Hin.
      destruct Hin as [c [Hc Hin]]. exists c. split; [exact Hin | congruence].
    + intros [c [Hin Hc]]. exists (Some true). split; [|reflexivity].
      apply in_map_iff. exists c. now split.
  - rewrite every_forall. split.
    + intros H c Hin. apply H. apply in_map_iff. exists c. now split.
    + intros H r Hin. apply in_map_iff in Hin.
      destruct Hin as [c [Hc Hin]]. rewrite <- Hc. now apply H.
Qed.

(** On a rule set made of ranges of one or two bounds, [testRange] answers
    whether (the address is in one of the ranges) = (the mode is allow). *)
Lemma rangeFilter_wellFormed (ip : Js.value) (c : token) :
  wellFormedRange c = true -> rangeFilter ip c = rangeHolds ip c.
Proof.
  destruct c as [s|[|a [|b [|x l]]]|]; simpl; try discriminate; reflexivity.
Qed.

Lemma testRange_on_ranges
  (ips : ruleSource) (rules : list token) (ip : Js.value) (l : list string)
  (m : Mode) (st : state) :
  stable ips rules ->
  forallb wellFormedRange rules = true ->
  result (testRange ips ip l (modeName m)) st =
  Bool.eqb (memberOfRanges ip rules) (isAllow m).
Proof.
  intros Hstable Hwf. unfold result.
  rewrite (testRange_result ips rules Hstable).
  assert (E : existsb (rangeFilter ip) rules = memberOfRanges ip rules).
  { clear Hstable. unfold memberOfRanges.
    induction rules as [|c rest IH]; simpl; [reflexivity|].
    simpl in Hwf. apply andb_true_iff in Hwf. destruct Hwf as [Hc Hrest].
    rewrite (rangeFilter_wellFormed ip c Hc). f_equal. now apply IH. }
  rewrite E. destruct (memberOfRanges ip rules), m; reflexivity.
Qed.

Lemma testIp_array (ips : ruleSource) (l : list string) (ip : Js.value)
  (mode : string) (st : state) :
  result (testIp ips (TArray l) ip mode) st = Some (result (testRange ips ip l mode) st).
Proof. unfold result, testIp. rewrite bind_unfold. reflexivity. Qed.

(** C4, where the code departs from it. With the rules
    ['127.0.0.1', ['10.0.0.1', '10.0.0.10']] and the address '0.0.0.2', which
    is outside the only range, [testRange] finds the address in the rule set:
    its filter also runs over the string rule and reads the first two
    characters of '127.0.0.1' as the bounds '1' and '2' of a range. Under allow
    the address is then accepted. *)
Theorem C4_string_rule_read_as_range (conf : settings) (st : state) :
  (toLong (Js.Str "1") <= toLong (Js.Str "0.0.0.2") <= toLong (Js.Str "2"))%Z ->
  (toLong (Js.Str "0.0.0.2") < toLong (Js.Str "10.0.0.1"))%Z ->
  Js.toLowerCase (mode conf) = "allow" ->
  let rules := [TString "127.0.0.1"; TArray ["10.0.0.1"; "10.0.0.10"]] in
  let ip := Js.Str "0.0.0.2" in
  memberOfRanges ip rules = false /\
  result (testRange (Static rules) ip ["10.0.0.1"; "10.0.0.10"] "allow") st = true /\
  result (matchClientIp (Static rules) conf ip) st = true.
Proof.
  intros [Hlo Hhi] Hout Hmode rules ip.
  apply Z.leb_le in Hlo. apply Z.leb_le in Hhi. apply Z.leb_gt in Hout.
  assert (Hin : existsb (rangeFilter ip) rules = true).
  { unfold rules, ip, rangeFilter. simpl.
    change (Js.charAt 0 "127.0.0.1") with (Js.Str "1").
    change (Js.charAt 1 "127.0.0.1") with (Js.Str "2").
    now rewrite Hlo, Hhi. }
  assert (Hrange : forall l, result (testRange (Static rules) ip l "allow") st = true).
  { intros l. unfold result.
    rewrite (testRange_result (Static rules) rules (stable_static rules)).
    now rewrite Hin. }
  split; [|split].
  - unfold memberOfRanges, rules, ip, rangeHolds. simpl. now rewrite Hout.
  - apply Hrange.
  - rewrite matchClientIp_combines. cbv zeta. rewrite Hmode. simpl String.eqb. cbv iota.
    apply some_exists. exists (Some true). split; [|reflexivity].
    unfold result.
    rewrite (invokeTestIp_result (Static rules) rules (stable_static rules) ip _ st st).
    apply in_map_iff. exists (TArray ["10.0.0.1"; "10.0.0.10"]). split.
    + fold (result (testIp (Static rules) (TArray ["10.0.0.1"; "10.0.0.10"]) ip "allow") st).
      now rewrite testIp_array, Hrange.
    + right. now left.
Qed.

End Rules.

(** ** Strings: [indexOf] and [split] *)

Lemma append_empty_r (s : string) : s ++ "" = s.
Proof. induction s as [|c s IH]; simpl; [reflexivity | now rewrite IH]. Qed.

Lemma append_assoc (a b c : string) : (a ++ b) ++ c = a ++ (b ++ c).
Proof. induction a as [|x a IH]; simpl; [reflexivity | now rewrite IH]. Qed.

Lemma prefix_empty (s : string) : String.prefix "" s = true.
Proof. destruct s; reflexivity. Qed.

Lemma prefix_append (a b : string) : String.prefix a (a ++ b) = true.
Proof.
  induction a as [|c a IH]; simpl; [apply prefix_empty|].
  destruct (ascii_dec c c) as [_|Hne]; [exact IH | now elim Hne].
Qed.

Lemma prefix_shorter (a b s : string) :
  String.prefix (a ++ b) s = true -> String.prefix a s = true.
Proof.
  revert s. induction a as [|c a IH]; intros s H; [apply prefix_empty|].
  destruct s as [|d s]; simpl in *; [discriminate|].
  destruct (ascii_dec c d); [now apply IH | discriminate].
Qed.

Lemma indexOf_empty (sub : string) :
  Js.indexOf sub "" = if String.prefix sub "" then 0%Z else (-1)%Z.
Proof. reflexivity. Qed.

Lemma indexOf_cons (sub : string) (c : ascii) (s : string) :
  Js.indexOf sub (String c s) =
  if String.prefix sub (String c s) then 0%Z
  else if (Js.indexOf sub s =? -1)%Z then (-1)%Z else (Js.indexOf sub s + 1)%Z.
Proof. reflexivity. Qed.

Lemma indexOf_lower_bound (sub s : string) : (-1 <= Js.indexOf sub s)%Z.
Proof.
  induction s as [|c s IH].
  - rewrite indexOf_empty. destruct (String.prefix sub ""); lia.
  - rewrite indexOf_cons. destruct (String.prefix sub (String c s)); [lia|].
    destruct (Js.indexOf sub s =? -1)%Z eqn:E; lia.
Qed.

(** The first occurrence is not at the head: it is the first occurrence in
    the tail, one further. *)
Lemma indexOf_tail (sub : string) (c : ascii) (s : string) (n : Z) :
  (0 <= n)%Z ->
  Js.indexOf sub (String c s) = (n + 1)%Z ->
  String.prefix sub (String c s) = false /\ Js.indexOf sub s = n.
Proof.
  intros Hn H. rewrite indexOf_cons in H.
  destruct (String.prefix sub (String c s)); [lia|].
  split; [reflexivity|].
  destruct (Js.indexOf sub s =? -1)%Z eqn:E; lia.
Qed.

Lemma indexOf_absent_tail (sub : string) (c : ascii) (s : string) :
  Js.indexOf sub (String c s) = (-1)%Z ->
  String.prefix sub (String c s) = false /\ Js.indexOf sub s = (-1)%Z.
Proof.
  intros H. rewrite indexOf_cons in H.
  destruct (String.prefix sub (String c s)); [discriminate|].
  split; [reflexivity|].
  destruct (Js.indexOf sub s =? -1)%Z eqn:E; [now apply Z.eqb_eq in E|].
  pose proof (indexOf_lower_bound sub s). lia.
Qed.

(** A string that does not contain [a] does not contain a string that starts
    with [a]. *)
Lemma indexOf_absent_longer (a b s : string) :
  Js.indexOf a s = (-1)%Z -> Js.indexOf (a ++ b) s = (-1)%Z.
Proof.
  induction s as [|c s IH]; intros H.
  - rewrite indexOf_empty in *.
    destruct (String.prefix a "") eqn:Ea; [discriminate|].
    destruct (String.prefix (a ++ b) "") eqn:Eab; [|reflexivity].
    apply prefix_shorter in Eab. congruence.
  - apply indexOf_absent_tail in H. destruct H as [Hp Ht].
    rewrite indexOf_cons.
    destruct (String.prefix (a ++ b) (String c s)) eqn:Eab.
    + apply prefix_shorter in Eab. congruence.
    + now rewrite (IH Ht).
Qed.

(** The first occurrence of a character in [host ++ c ++ rest], when [host]
    does not contain it, is right after [host]. *)
Lemma indexOf_char_first (c : ascii) (host rest : string) :
  Js.indexOf (String c "") host = (-1)%Z ->
  Js.indexOf (String c "") (host ++ String c "" ++ rest) = Z.of_nat (String.length host).
Proof.
  induction host as [|d host IH]; intros H.
  - change ("" ++ String c "" ++ rest) with (String c "" ++ rest).
    change (String c "" ++ rest) with (String c rest). rewrite indexOf_cons.
    change (String c rest) with (String c "" ++ rest).
    now rewrite prefix_append.
  - apply indexOf_absent_tail in H. destruct H as [Hp Ht].
    specialize (IH Ht).
    change ((String d host ++ String c "" ++ rest))
      with (String d (host ++ String c "" ++ rest)).
    rewrite indexOf_cons.
    assert (Hp' : String.prefix (String c "") (String d (host ++ String c "" ++ rest)) = false).
    { simpl in *. destruct (ascii_dec c d); [|reflexivity].
      now rewrite prefix_empty in Hp. }
    rewrite Hp', IH.
    destruct (Z.of_nat (String.length host) =? -1)%Z eqn:E.
    + apply Z.eqb_eq in E. lia.
    + simpl String.length. lia.
Qed.

(** Characters of a matched separator are dropped. *)
Lemma splitFrom_skip (sep a rest cur : string) :
  Js.splitFrom sep (a ++ rest) (String.length a) cur = Js.splitFrom sep rest 0 cur.
Proof.
  induction a as [|c a IH]; simpl; [reflexivity | exact IH].
Qed.

(** [split] cuts at the first occurrence of the separator. *)
Lemma splitFrom_first (sep pre rest cur : string) :
  sep <> "" ->
  Js.indexOf sep (pre ++ sep ++ rest) = Z.of_nat (String.length pre) ->
  Js.splitFrom sep (pre ++ sep ++ rest) 0 cur = (cur ++ pre) :: Js.splitFrom sep rest 0 "".
Proof.
  intros Hsep. revert cur. induction pre as [|c pre IH]; intros cur H.
  - destruct sep as [|x sep]; [now elim Hsep|].
    change ("" ++ String x sep ++ rest) with (String x (sep ++ rest)).
    cbn [Js.splitFrom].
    change (String x (sep ++ rest)) with (String x sep ++ rest).
    rewrite prefix_append, append_empty_r.
    replace (String.length (String x sep) - 1) with (String.length sep)
      by (simpl; lia).
    now rewrite splitFrom_skip.
  - change (String c pre ++ sep ++ rest) with (String c (pre ++ sep ++ rest)) in *.
    replace (Z.of_nat (String.length (String c pre)))
      with (Z.of_nat (String.length pre) + 1)%Z in H by (simpl String.length; lia).
    apply indexOf_tail in H; [|lia]. destruct H as [Hp Ht].
    cbn [Js.splitFrom]. rewrite Hp, (IH _ Ht).
    now rewrite append_assoc.
Qed.

(** Without an occurrence of the separator, [split] gives the string back. *)
Lemma splitFrom_absent (sep s cur : string) :
  Js.indexOf sep s = (-1)%Z -> Js.splitFrom sep s 0 cur = [cur ++ s].
Proof.
  revert cur. induction s as [|c s IH]; intros cur H.
  - simpl. now rewrite append_empty_r.
  - apply indexOf_absent_tail in H. destruct H as [Hp Ht].
    cbn [Js.splitFrom]. rewrite Hp, (IH _ Ht).
    now rewrite append_assoc.
Qed.

Lemma splitFrom_not_empty (sep s : string) (skip : nat) (cur : string) :
  Js.splitFrom sep s skip cur <> [].
Proof.
  revert skip cur. induction s as [|c s IH]; intros skip cur; cbn [Js.splitFrom].
  - discriminate.
  - destruct skip; [|apply IH].
    destruct (String.prefix sep (String c s)); [discriminate | apply IH].
Qed.

Lemma split_first (sep pre rest : string) :
  sep <> "" ->
  Js.indexOf sep (pre ++ sep ++ rest) = Z.of_nat (String.length pre) ->
  Js.split sep (pre ++ sep ++ rest) = pre :: Js.split sep rest.
Proof. intros Hsep H. unfold Js.split. now rewrite splitFrom_first. Qed.

Lemma split_absent (sep s : string) :
  Js.indexOf sep s = (-1)%Z -> Js.split sep s = [s].
Proof. intros H. unfold Js.split. now rewrite splitFrom_absent. Qed.

(** ** The address resolver *)

Lemma contains_test (n : Z) :
  Js.truthyNum (Js.bitNot n) = negb (n =? -1)%Z.
Proof.
  unfold Js.truthyNum, Js.bitNot, Z.lnot. f_equal.
  destruct (n =? -1)%Z eqn:E.
  - apply Z.eqb_eq in E. subst n. reflexivity.
  - apply Z.eqb_neq in E. apply Z.eqb_neq. lia.
Qed.

Lemma mapOpt_Forall2 {A B : Type} (f : A -> option B) (l : list A) (out : list B) :
  mapOpt f l = Some out <-> Forall2 (fun a b => f a = Some b) l out.
Proof.
  revert out. induction l as [|a rest IH]; intros out; simpl.
  - split.
    + intros H. injection H as <-. constructor.
    + intros H. inversion H. reflexivity.
  - split.
    + intros H. destruct (f a) as [b|] eqn:Ea; [|discriminate].
      destruct (mapOpt f rest) as [bs|] eqn:Er; [|discriminate].
      injection H as <-. constructor; [exact Ea | now apply IH].
    + intros H. inversion H as [|a' b rest' bs Ha Hr]; subst.
      rewrite Ha. apply IH in Hr. now rewrite Hr.
Qed.

(** Headers whose value is the empty string leave the accumulator of the
    [_.reduce] as it is. *)
Lemma headerIp_skips_empty (req : request) (post : list string) (acc : Js.value) :
  (forall h, In h post -> headers req h = Js.Str "") ->
  fold_left (headerStep req) post acc = acc.
Proof.
  revert acc. induction post as [|h post IH]; intros acc H; simpl; [reflexivity|].
  unfold headerStep at 2. rewrite (H h (or_introl eq_refl)). simpl.
  apply IH. intros h' Hin. apply H. now right.
Qed.

Lemma splitHeader_not_empty (v : string) :
  v <> "" -> splitHeader (Js.Str v) = map Js.Str (Js.split "," v) /\
             splitHeader (Js.Str v) <> [].
Proof.
  intros Hv. unfold splitHeader, Js.truthy.
  destruct (String.eqb v "") eqn:E; [apply String.eqb_eq in E; contradiction|].
  simpl. split; [reflexivity|].
  unfold Js.split. pose proof (splitFrom_not_empty "," v 0 "") as Hne.
  destruct (Js.splitFrom "," v 0 ""); [contradiction | discriminate].
Qed.

Lemma candidateAddresses_not_empty (allowed : list string) (req : request) :
  candidateAddresses allowed req <> [].
Proof.
  unfold candidateAddresses.
  destruct (splitHeader (headerIp allowed req)); simpl; discriminate.
Qed.

Section ResolverProperties.

Context {ipUtil : IpUtil}.

(** [getClientIp] normalizes every candidate: the early [return] on an empty
    list is never taken, so it never yields an empty list either. *)
Lemma getClientIp_maps (allowed : list string) (req : request) :
  getClientIp allowed req = mapOpt normalizeIp (candidateAddresses allowed req).
Proof.
  unfold getClientIp. pose proof (candidateAddresses_not_empty allowed req) as Hne.
  destruct (candidateAddresses allowed req); [contradiction | reflexivity].
Qed.

Lemma getClientIp_never_empty (allowed : list string) (req : request) :
  getClientIp allowed req <> Some [].
Proof.
  rewrite getClientIp_maps. intros H. apply mapOpt_Forall2 in H.
  inversion H as [Hnil|]. symmetry in Hnil.
  now apply candidateAddresses_not_empty in Hnil.
Qed.

(** C5, as the code has it. The [_.reduce] keeps the value of the last allowed
    header that is not empty: when that header is followed in the list only by
    headers the request carries with an empty value, its value alone is split
    into the candidate addresses, whatever the headers listed before it
    hold. *)
Theorem C5_last_non_empty_header_wins
  (pre post : list string) (header v : string) (req : request) :
  headers req header = Js.Str v ->
  v <> "" ->
  (forall h, In h post -> headers req h = Js.Str "") ->
  headerIp (pre ++ header :: post) req = Js.Str v /\
  candidateAddresses (pre ++ header :: post) req = map Js.Str (Js.split "," v) /\
  getClientIp (pre ++ header :: post) req = mapOpt normalizeIp (map Js.Str (Js.split "," v)).
Proof.
  intros Hv Hne Hpost.
  assert (Hh : headerIp (pre ++ header :: post) req = Js.Str v).
  { unfold headerIp. rewrite fold_left_app. simpl.
    rewrite (headerIp_skips_empty req post _ Hpost).
    unfold headerStep at 1. rewrite Hv. unfold Js.looseNeqEmpty.
    destruct (String.eqb v "") eqn:E; [apply String.eqb_eq in E; contradiction|].
    reflexivity. }
  assert (Hc : candidateAddresses (pre ++ header :: post) req = map Js.Str (Js.split "," v)).
  { unfold candidateAddresses. rewrite Hh.
    destruct (splitHeader_not_empty v Hne) as [Heq Hnot]. rewrite Heq in *.
    destruct (map Js.Str (Js.split "," v)); [contradiction | reflexivity]. }
  split; [exact Hh|]. split; [exact Hc|].
  now rewrite getClientIp_maps, Hc.
Qed.

(** The first rewriting: an IPv6-formatted string in which the marker
    [::ffff:] is followed by a literal without colon becomes that literal. *)
Lemma mapped_address_stripped (pre v4 : string) :
  isV6Format (Js.Str (pre ++ "::ffff:" ++ v4)) = true ->
  Js.indexOf "::ffff:" (pre ++ "::ffff:" ++ v4) = Z.of_nat (String.length pre) ->
  Js.indexOf ":" v4 = (-1)%Z ->
  normalizeIp (Js.Str (pre ++ "::ffff:" ++ v4)) = Some (Js.Str v4).
Proof.
  intros H6 Hfirst Hcolon.
  assert (Hshort : Js.indexOf "::ffff" (pre ++ "::ffff:" ++ v4) <> (-1)%Z).
  { intros Habs. apply (indexOf_absent_longer "::ffff" ":") in Habs.
    change ("::ffff" ++ ":") with "::ffff:" in Habs. lia. }
  assert (Hmarker : Js.indexOf "::ffff:" v4 = (-1)%Z).
  { now apply (indexOf_absent_longer ":" ":ffff:") in Hcolon. }
  unfold normalizeIp, stripMapped, formatAndContains.
  rewrite H6, contains_test.
  apply Z.eqb_neq in Hshort. rewrite Hshort. simpl negb. cbv iota.
  rewrite split_first by (discriminate || assumption).
  rewrite (split_absent _ _ Hmarker).
  change (Js.nth 1 [pre; v4]) with (Js.Str v4).
  unfold stripPort, formatAndContains.
  rewrite contains_test, Hcolon.
  destruct (isV4Format (Js.Str v4)); reflexivity.
Qed.

Lemma mapped_loopback_stripped :
  isV6Format (Js.Str "::ffff:127.0.0.1") = true ->
  normalizeIp (Js.Str "::ffff:127.0.0.1") = Some (Js.Str "127.0.0.1").
Proof.
  intros H6. apply (mapped_address_stripped "" "127.0.0.1");
    [exact H6 | reflexivity | reflexivity].
Qed.

(** [getClientIp] rewrites the candidates one by one, in order. *)
Lemma getClientIp_elementwise (allowed : list string) (req : request)
  (out : list Js.value) :
  getClientIp allowed req = Some out <->
  Forall2 (fun a b => normalizeIp a = Some b) (candidateAddresses allowed req) out.
Proof. rewrite getClientIp_maps. apply mapOpt_Forall2. Qed.

(** The second rewriting is guarded by [iputil.isV4Format]. When that test
    accepts no string with a colon, as an expression anchored on four dotted
    numbers does, the guard never holds and no candidate is ever cut at a
    colon. *)
Lemma stripPort_never_applies :
  (forall s, isV4Format (Js.Str s) = true -> Js.indexOf ":" s = (-1)%Z) ->
  isV4Format Js.Undefined = false ->
  forall a, stripPort a = Some a.
Proof.
  intros Hanchored Hundefined [|s]; unfold stripPort, formatAndContains.
  - now rewrite Hundefined.
  - destruct (isV4Format (Js.Str s)) eqn:E; [|reflexivity].
    now rewrite contains_test, (Hanchored s E).
Qed.

(** C6, where the code departs from it. '127.0.0.1:54321' is to become
    '127.0.0.1', and lines 98-100 are there to cut the port; but their guard
    asks [iputil.isV4Format] about the string with its port, and the answer
    is no: the candidate is kept with its port, alone or as the peer address
    of a request. *)
Theorem C6_port_suffix_is_kept :
  isV4Format (Js.Str "127.0.0.1:54321") = false ->
  normalizeIp (Js.Str "127.0.0.1:54321") = Some (Js.Str "127.0.0.1:54321") /\
  forall req : request,
    remoteAddress req = Js.Str "127.0.0.1:54321" ->
    getClientIp [] req = Some [Js.Str "127.0.0.1:54321"].
Proof.
  intros H4.
  assert (Hn : normalizeIp (Js.Str "127.0.0.1:54321") = Some (Js.Str "127.0.0.1:54321")).
  { unfold normalizeIp, stripMapped, formatAndContains.
    change (Js.truthyNum (Js.bitNot (Js.indexOf "::ffff" "127.0.0.1:54321"))) with false.
    assert (E : (if isV6Format (Js.Str "127.0.0.1:54321")
                 then Some false else Some false) = Some false)
      by (destruct (isV6Format (Js.Str "127.0.0.1:54321")); reflexivity).
    rewrite E. unfold stripPort, formatAndContains. now rewrite H4. }
  split; [exact Hn|].
  intros req Hpeer. rewrite getClientIp_maps.
  unfold candidateAddresses, headerIp. simpl. now rewrite Hpeer, Hn.
Qed.

End ResolverProperties.

(** ** The decision *)

Section Decision.

Context {ipUtil : IpUtil} {rangeCheck : RangeCheck} {regExp : RegExpEngine}.

Lemma middleware_not_excluded (ips : ruleSource) (conf : settings) (req : request) :
  excludedBy conf req = [] ->
  middleware ips conf req = decide ips conf req.
Proof.
  intros H. unfold middleware. rewrite H. simpl.
  destruct (0 <? List.length (excluding conf))%nat; reflexivity.
Qed.

Lemma middleware_excluded (ips : ruleSource) (conf : settings) (req : request) (st : state) :
  excludedBy conf req <> [] ->
  result (middleware ips conf req) st = CallNext /\
  calls (snd (middleware ips conf req st)) = calls st.
Proof.
  intros H. unfold result, middleware.
  assert (Hex : (0 <? List.length (excluding conf))%nat = true).
  { unfold excludedBy in H. destruct (excluding conf); [now elim H | reflexivity]. }
  rewrite Hex.
  destruct (excludedBy conf req) as [|p ps] eqn:E; [now elim H|].
  simpl. rewrite bind_unfold. simpl.
  unfold when. destruct (grantsLogged conf); split; reflexivity.
Qed.

Lemma decide_empty (ips : ruleSource) (conf : settings) (req : request) (st : state) :
  result (getIps ips) st = [] ->
  decide ips conf req st =
  ((if String.eqb (mode conf) "allow" then CallError [Js.Str "0.0.0.0/0"] else CallNext),
   snd (getIps ips st)).
Proof.
  unfold result. intros H. unfold decide. rewrite bind_unfold, H. simpl.
  destruct (String.eqb (mode conf) "allow"); reflexivity.
Qed.

Lemma log_keeps_result (c : bool) (message : string) (o : outcome) (st : state) :
  fst ((when c (logF message) ;;; ret o) st) = o /\
  calls (snd ((when c (logF message) ;;; ret o) st)) = calls st.
Proof. rewrite bind_unfold. destruct c; split; reflexivity. Qed.

Lemma decide_rules (ips : ruleSource) (conf : settings) (req : request)
  (addresses : list Js.value) (st : state) :
  result (getIps ips) st <> [] ->
  detectIp conf req = Some addresses ->
  let st1 := snd (getIps ips st) in
  result (decide ips conf req) st =
  (if forallb (fun b : bool => b) (result (mapM (matchClientIp ips conf) addresses) st1)
   then CallNext else CallError addresses) /\
  calls (snd (decide ips conf req st)) =
  calls (snd (mapM (matchClientIp ips conf) addresses st1)).
Proof.
  intros Hne Hdetect st1. unfold result in *. unfold decide.
  rewrite bind_unfold. fold st1.
  destruct (fst (getIps ips st)) as [|c rest]; [now elim Hne|].
  change (List.length (c :: rest) =? 0)%nat with false. cbv iota. rewrite Hdetect.
  rewrite bind_unfold.
  destruct (forallb (fun b : bool => b) (fst (mapM (matchClientIp ips conf) addresses st1)));
    apply log_keeps_result.
Qed.

(** C7. When no excluded path matches and the rule set obtained is empty, the
    request is refused with the addresses ['0.0.0.0/0'] under allow and goes
    on under deny, whatever the request. *)
Theorem C7_empty_rule_set
  (ips : ruleSource) (conf : settings) (m : Mode) (req : request) (st : state) :
  excludedBy conf req = [] ->
  result (getIps ips) st = [] ->
  mode conf = modeName m ->
  result (middleware ips conf req) st =
  match m with
  | Allow => CallError [Js.Str "0.0.0.0/0"]
  | Deny => CallNext
  end.
Proof.
  intros Hex Hempty Hmode.
  rewrite (middleware_not_excluded ips conf req Hex).
  unfold result. rewrite (decide_empty ips conf req st Hempty), Hmode.
  destruct m; reflexivity.
Qed.

(** C10. When no excluded path matches, the rule set is not empty and the
    resolver yields no candidate, the request goes on. *)
Theorem C10_no_candidate_proceeds
  (ips : ruleSource) (conf : settings) (req : request) (st : state) :
  excludedBy conf req = [] ->
  result (getIps ips) st <> [] ->
  detectIp conf req = Some [] ->
  result (middleware ips conf req) st = CallNext.
Proof.
  intros Hex Hne Hdetect.
  rewrite (middleware_not_excluded ips conf req Hex).
  destruct (decide_rules ips conf req [] st Hne Hdetect) as [Hres _].
  rewrite Hres. reflexivity.
Qed.


(** With a stable rule source the results of [matchClientIp] on the
    candidates are those it gives on each of them alone. *)
Lemma mapM_matchClientIp (ips : ruleSource) (rules : list token) (conf : settings)
  (addresses : list Js.value) (st st0 : state) :
  stable ips rules ->
  result (mapM (matchClientIp ips conf) addresses) st =
  map (fun ip => result (matchClientIp ips conf ip) st0) addresses.
Proof.
  intros Hstable. unfold result. apply mapM_constant.
  intros ip. now apply (matchClientIp_constant ips rules).
Qed.


End Decision.

(** ** The spelling of the mode *)

Lemma mapM_ext {A B : Type} (f g : A -> M B) (l : list A) :
  (forall a, f a = g a) -> mapM f l = mapM g l.
Proof.
  intros H. induction l as [|a l IH]; simpl; [reflexivity|].
  now rewrite H, IH.
Qed.

Section ModeSpelling.

Context {ipUtil : IpUtil} {rangeCheck : RangeCheck} {regExp : RegExpEngine}.

Lemma matchClientIp_mode_case (ips : ruleSource) (conf : settings) (m : string) (ip : Js.value) :
  Js.toLowerCase m = Js.toLowerCase (mode conf) ->
  matchClientIp ips (setMode m conf) ip = matchClientIp ips conf ip.
Proof. intros H. unfold matchClientIp. simpl mode. now rewrite H. Qed.

(** Past the test for an empty rule set only the lower-cased mode is read: two
    spellings of one mode then give the same decision, state included. *)
Lemma middleware_mode_case
  (ips : ruleSource) (conf : settings) (m : string) (req : request) (st : state) :
  Js.toLowerCase m = Js.toLowerCase (mode conf) ->
  result (getIps ips) st <> [] ->
  middleware ips (setMode m conf) req st = middleware ips conf req st.
Proof.
  intros Hm Hne.
  assert (Hd : decide ips (setMode m conf) req st = decide ips conf req st).
  { unfold decide. rewrite !bind_unfold. unfold result in Hne.
    destruct (fst (getIps ips st)) as [|c rest]; [now elim Hne|].
    change (List.length (c :: rest) =? 0)%nat with false. cbv iota.
    change (detectIp (setMode m conf) req) with (detectIp conf req).
    destruct (detectIp conf req) as [addresses|]; [|reflexivity].
    rewrite (mapM_ext (matchClientIp ips (setMode m conf)) (matchClientIp ips conf))
      by (intros ip; now apply matchClientIp_mode_case).
    reflexivity. }
  unfold middleware.
  change (excluding (setMode m conf)) with (excluding conf).
  change (excludedBy (setMode m conf) req) with (excludedBy conf req).
  change (grantsLogged (setMode m conf)) with (grantsLogged conf).
  destruct (0 <? List.length (excluding conf))%nat; [|exact Hd].
  destruct (0 <? List.length (excludedBy conf req))%nat; [reflexivity | exact Hd].
Qed.

(** C8, where the code departs from it. With an empty rule set the mode is
    compared with 'allow' as it is spelled: the filter configured with mode
    'ALLOW' lets every request go on, the one configured with 'allow' refuses
    it with ['0.0.0.0/0']. *)
Theorem C8_upper_case_allow_with_no_rule (req : request) (st : state) :
  Js.toLowerCase "ALLOW" = "allow" /\
  result (ipfilter (Static []) (Sample.withMode "ALLOW") req) st = CallNext /\
  result (ipfilter (Static []) (Sample.withMode "allow") req) st
  = CallError [Js.Str "0.0.0.0/0"].
Proof. repeat split. Qed.

End ModeSpelling.

(** ** Calls of the callback *)

Section Calls.

Context {ipUtil : IpUtil} {rangeCheck : RangeCheck} {regExp : RegExpEngine}.
Variable rules : list token.






(** On an excluded path the callback is not called. *)
Lemma excluded_path_calls (conf : settings) (req : request) (st : state) :
  excludedBy conf req <> [] ->
  callsMade (middleware (constantCallback rules) conf req) st = 0.
Proof.
  intros H. unfold callsMade.
  destruct (middleware_excluded (constantCallback rules) conf req st H) as [_ Hc].
  rewrite Hc. lia.
Qed.

End Calls.

(** ** The statements at work on the stand-ins *)

Section OnStandIns.

Existing Instance Sample.ipUtil.
Existing Instance Sample.rangeCheck.
Existing Instance Sample.regExp.



Lemma C2_allow_accepts_on_one_rule :
  result (matchClientIp (Static [TString "10.0.0.0/24"; TString "127.0.0.1"])
            (defaults (Sample.withMode "Allow")) (Js.Str "127.0.0.1")) initial = true.
Proof.
  apply (C2_rules_combined_by_mode
           (Static [TString "10.0.0.0/24"; TString "127.0.0.1"])
           [TString "10.0.0.0/24"; TString "127.0.0.1"]
           (defaults (Sample.withMode "Allow")) Allow (Js.Str "127.0.0.1") initial).
  - intros st. reflexivity.
  - reflexivity.
  - exists (TString "127.0.0.1"). split; [right; left; reflexivity | reflexivity].
Defined.

Lemma C4_address_2_accepted :
  memberOfRanges (Js.Str "0.0.0.2")
    [TString "127.0.0.1"; TArray ["10.0.0.1"; "10.0.0.10"]] = false /\
  result (ipfilter (Static [TString "127.0.0.1"; TArray ["10.0.0.1"; "10.0.0.10"]])
            (Sample.withMode "allow") (Sample.requestFrom "0.0.0.2" "/" [])) initial
  = CallNext.
Proof.
  destruct (C4_string_rule_read_as_range (defaults (Sample.withMode "allow")) initial)
    as [Hspec [_ Hcode]].
  - vm_compute. split; discriminate.
  - reflexivity.
  - reflexivity.
  - split; [exact Hspec|]. vm_compute. reflexivity.
Defined.

Lemma C5_second_header_wins :
  getClientIp ["x-forwarded-for"; "x-real-ip"]
    (Sample.requestFrom "10.0.0.7" "/"
       [("x-forwarded-for", "1.1.1.1"); ("x-real-ip", "2.2.2.2,3.3.3.3")])
  = Some [Js.Str "2.2.2.2"; Js.Str "3.3.3.3"].
Proof.
  destruct (C5_last_non_empty_header_wins ["x-forwarded-for"] [] "x-real-ip"
              "2.2.2.2,3.3.3.3"
              (Sample.requestFrom "10.0.0.7" "/"
                 [("x-forwarded-for", "1.1.1.1"); ("x-real-ip", "2.2.2.2,3.3.3.3")]))
    as [_ [_ H]].
  - reflexivity.
  - discriminate.
  - intros h [].
  - simpl app in H. rewrite H. reflexivity.
Defined.

(** C5 as it is stated fails: with both headers set, the value used is that of
    the header listed last, not first. *)
Lemma C5_first_header_does_not_win :
  headerIp ["x-forwarded-for"; "x-real-ip"]
    (Sample.requestFrom "10.0.0.7" "/"
       [("x-forwarded-for", "1.1.1.1"); ("x-real-ip", "2.2.2.2")])
  <> firstNonEmptyHeader
       (Sample.requestFrom "10.0.0.7" "/"
          [("x-forwarded-for", "1.1.1.1"); ("x-real-ip", "2.2.2.2")])
       ["x-forwarded-for"; "x-real-ip"].
Proof. vm_compute. discriminate. Qed.

(** A header that the request does not carry, listed after one it carries,
    resets the search: the peer address is used. *)
Example absent_header_listed_last :
  getClientIp ["x-forwarded-for"; "x-real-ip"]
    (Sample.requestFrom "10.0.0.7" "/" [("x-forwarded-for", "1.1.1.1")])
  = Some [Js.Str "10.0.0.7"].
Proof. reflexivity. Qed.

(** The first test looks for [::ffff] and the split is on [::ffff:]: an
    address that ends with the former loses its value. *)
Example marker_without_final_colon :
  normalizeIp (Js.Str "1::ffff") = Some Js.Undefined.
Proof. vm_compute. reflexivity. Qed.

(** The stand-in for [isV4Format] is anchored as the package's is. *)
Lemma dottedQuad_without_colon (s : string) :
  Sample.dottedQuad (Js.Str s) = true -> Js.indexOf ":" s = (-1)%Z.
Proof.
  unfold Sample.dottedQuad. intros H. apply andb_true_iff in H. destruct H as [H _].
  induction s as [|c s IH]; [reflexivity|].
  simpl in H. apply andb_true_iff in H. destruct H as [Hc Hs].
  rewrite indexOf_cons, (IH Hs).
  assert (Hp : String.prefix ":" (String c s) = false).
  { change (String.prefix ":" (String c s))
      with (if ascii_dec ":"%char c then String.prefix "" s else false).
    destruct (ascii_dec ":"%char c) as [<-|_]; [|reflexivity].
    vm_compute in Hc. discriminate. }
  now rewrite Hp.
Qed.

Example no_port_is_cut_on_the_stand_ins (a : Js.value) : stripPort a = Some a.
Proof.
  apply stripPort_never_applies; [exact dottedQuad_without_colon | reflexivity].
Qed.

Example mapped_and_plain_candidates :
  getClientIp ["x-forwarded-for"]
    (Sample.forwarded "10.0.0.7" "/" "::ffff:127.0.0.1,8.8.8.8")
  = Some [Js.Str "127.0.0.1"; Js.Str "8.8.8.8"].
Proof. vm_compute. reflexivity. Qed.

Lemma C6_port_suffixed_peer_refused :
  normalizeIp (Js.Str "127.0.0.1:54321") = Some (Js.Str "127.0.0.1:54321") /\
  Sample.run (Static [TString "127.0.0.1"]) (Sample.withMode "allow")
             (Sample.requestFrom "127.0.0.1:54321" "/" [])
  = CallError [Js.Str "127.0.0.1:54321"].
Proof.
  destruct (C6_port_suffix_is_kept (ipUtil := Sample.ipUtil)) as [Hn _].
  - vm_compute. reflexivity.
  - split; [exact Hn|]. vm_compute. reflexivity.
Defined.

Lemma C7_no_rule_under_allow_and_deny :
  Sample.run (Static []) (Sample.withMode "allow") (Sample.requestFrom "127.0.0.1" "/" [])
  = CallError [Js.Str "0.0.0.0/0"] /\
  Sample.run (constantCallback []) (Sample.withMode "deny")
             (Sample.requestFrom "127.0.0.1" "/" [])
  = CallNext.
Proof.
  split.
  - apply (C7_empty_rule_set (Static []) (defaults (Sample.withMode "allow")) Allow
             (Sample.requestFrom "127.0.0.1" "/" []) initial); reflexivity.
  - apply (C7_empty_rule_set (constantCallback []) (defaults (Sample.withMode "deny")) Deny
             (Sample.requestFrom "127.0.0.1" "/" []) initial); reflexivity.
Defined.



Lemma C10_resolver_without_candidate :
  Sample.run (Static [TString "127.0.0.1"])
             (mkOptions (Some "allow") None None None None (Some (fun _ => Some [])))
             (Sample.requestFrom "8.8.8.8" "/" [])
  = CallNext.
Proof.
  apply (C10_no_candidate_proceeds (Static [TString "127.0.0.1"])
           (defaults (mkOptions (Some "allow") None None None None (Some (fun _ => Some []))))
           (Sample.requestFrom "8.8.8.8" "/" []) initial).
  - reflexivity.
  - discriminate.
  - reflexivity.
Defined.

End OnStandIns.

(** * Further properties of the filter *)

(** ** What is logged *)

Lemma getIps_logged (ips : ruleSource) (st : state) :
  logged (snd (getIps ips st)) = logged st.
Proof. destruct ips; reflexivity. Qed.

Lemma mapM_logged {A B : Type} (f : A -> M B) (l : list A) :
  (forall a st, logged (snd (f a st)) = logged st) ->
  forall st, logged (snd (mapM f l st)) = logged st.
Proof.
  intros Hf. induction l as [|a l IH]; intros st; [reflexivity|].
  cbn [mapM]. rewrite bind_unfold, bind_unfold. simpl snd.
  now rewrite IH, Hf.
Qed.

Section Logging.

Context {ipUtil : IpUtil} {rangeCheck : RangeCheck} {regExp : RegExpEngine}.

Lemma testIp_logged (ips : ruleSource) (c : token) (ip : Js.value) (mode : string)
  (st : state) :
  logged (snd (testIp ips c ip mode st)) = logged st.
Proof.
  destruct c as [s|l|]; try reflexivity.
  unfold testIp, testRange. rewrite !bind_unfold. simpl snd.
  apply getIps_logged.
Qed.

Lemma matchClientIp_logged (ips : ruleSource) (conf : settings) (ip : Js.value)
  (st : state) :
  logged (snd (matchClientIp ips conf ip st)) = logged st.
Proof.
  unfold matchClientIp, invokeTestIp. rewrite !bind_unfold. simpl snd.
  rewrite mapM_logged by (intros c st'; apply testIp_logged).
  apply getIps_logged.
Qed.

Lemma when_logged (c : bool) (message : string) (o : outcome) (st : state) :
  logged (snd ((when c (logF message) ;;; ret o) st)) =
  app (logged st) (if c then [message] else []).
Proof.
  rewrite bind_unfold. destruct c; simpl; [reflexivity | now rewrite app_nil_r].
Qed.

Lemma middleware_excluded_logged
  (ips : ruleSource) (conf : settings) (req : request) (st : state) :
  excludedBy conf req <> [] ->
  result (middleware ips conf req) st = CallNext /\
  calls (snd (middleware ips conf req st)) = calls st /\
  logged (snd (middleware ips conf req st)) =
  app (logged st)
      (if grantsLogged conf
       then ["Access granted for excluded path: "
             ++ Js.show (Js.nth 0 (excludedBy conf req))]
       else []).
Proof.
  intros H. unfold result, middleware.
  assert (Hex : (0 <? List.length (excluding conf))%nat = true).
  { unfold excludedBy in H. destruct (excluding conf); [now elim H | reflexivity]. }
  rewrite Hex.
  destruct (excludedBy conf req) as [|p ps] eqn:E; [now elim H|].
  change (0 <? List.length (p :: ps))%nat with true. cbv iota.
  destruct (log_keeps_result (grantsLogged conf)
              ("Access granted for excluded path: " ++ Js.show (Js.nth 0 (p :: ps)))
              CallNext st) as [Hr Hc].
  split; [exact Hr|]. split; [exact Hc|]. apply when_logged.
Qed.

(** X1. A request whose path matches an excluded pattern goes on whatever the
    rules, the mode and its addresses: the rule source is not asked, the
    resolver is not run, and the only message logged names the first pattern
    that matched. *)
Theorem X1_excluded_path_bypasses
  (ips : ruleSource) (conf : settings) (req : request) (st : state) :
  excludedBy conf req <> [] ->
  result (middleware ips conf req) st = CallNext /\
  calls (snd (middleware ips conf req st)) = calls st /\
  logged (snd (middleware ips conf req st)) =
  app (logged st)
      (if grantsLogged conf
       then ["Access granted for excluded path: "
             ++ Js.show (Js.nth 0 (excludedBy conf req))]
       else []).
Proof. apply middleware_excluded_logged. Qed.

(** What [decide] logs, in each of its branches. *)
Lemma decide_logged (ips : ruleSource) (conf : settings) (req : request) (st : state) :
  logged (snd (decide ips conf req st)) =
  app (logged st)
  match result (getIps ips) st, detectIp conf req with
  | [], _ => []
  | _ :: _, None => []
  | _ :: _, Some addresses =>
      match result (decide ips conf req) st with
      | CallNext =>
          if grantsLogged conf
          then ["Access granted to IP address: " ++ Js.join "," addresses]
          else []
      | CallError _ => if denialsLogged conf then [error addresses] else []
      | TypeError => []
      end
  end.
Proof.
  unfold result, decide. rewrite bind_unfold.
  destruct (fst (getIps ips st)) as [|c rest].
  - change (List.length (@nil token) =? 0)%nat with true. cbv iota.
    rewrite app_nil_r.
    destruct (String.eqb (mode conf) "allow"); apply getIps_logged.
  - change (List.length (c :: rest) =? 0)%nat with false. cbv iota.
    destruct (detectIp conf req) as [addresses|].
    + rewrite bind_unfold.
      assert (Hl : logged (snd (mapM (matchClientIp ips conf) addresses (snd (getIps ips st))))
                   = logged st).
      { rewrite mapM_logged by (intros ip st'; apply matchClientIp_logged).
        apply getIps_logged. }
      destruct (forallb (fun b : bool => b)
                  (fst (mapM (matchClientIp ips conf) addresses (snd (getIps ips st))))).
      * rewrite when_logged, Hl.
        destruct (log_keeps_result (grantsLogged conf)
                    ("Access granted to IP address: " ++ Js.join "," addresses) CallNext
                    (snd (mapM (matchClientIp ips conf) addresses (snd (getIps ips st)))))
          as [Hr _].
        now rewrite Hr.
      * rewrite when_logged, Hl.
        destruct (log_keeps_result (denialsLogged conf)
                    ("Access denied to IP address: " ++ Js.join "," addresses)
                    (CallError addresses)
                    (snd (mapM (matchClientIp ips conf) addresses (snd (getIps ips st)))))
          as [Hr _].
        now rewrite Hr.
    + simpl. rewrite app_nil_r. apply getIps_logged.
Qed.

(** X2. With the option [log] off nothing is handed to the log sink, whatever
    the decision. *)
Theorem X2_silent_when_log_is_off
  (ips : ruleSource) (conf : settings) (req : request) (st : state) :
  log conf = false ->
  logged (snd (middleware ips conf req st)) = logged st.
Proof.
  intros Hlog.
  assert (Hg : grantsLogged conf = false) by (unfold grantsLogged; now rewrite Hlog).
  assert (Hd : denialsLogged conf = false) by (unfold denialsLogged; now rewrite Hlog).
  assert (Hdecide : logged (snd (decide ips conf req st)) = logged st).
  { rewrite decide_logged, Hg, Hd.
    destruct (result (getIps ips) st); [apply app_nil_r|].
    destruct (detectIp conf req); [|apply app_nil_r].
    destruct (result (decide ips conf req) st); apply app_nil_r. }
  destruct (excludedBy conf req) as [|p ps] eqn:E.
  - now rewrite (middleware_not_excluded ips conf req E).
  - destruct (middleware_excluded_logged ips conf req st) as [_ [_ H]].
    + rewrite E. discriminate.
    + rewrite H, Hg. apply app_nil_r.
Qed.

(** X3. A decision taken on the candidate addresses is logged once: a grant
    with the joined addresses unless logging is off or [logLevel] is 'deny', a
    denial with the very message of the error unless logging is off or
    [logLevel] is 'allow'. *)
Theorem X3_decision_logged_once
  (ips : ruleSource) (conf : settings) (req : request)
  (addresses : list Js.value) (st : state) :
  excludedBy conf req = [] ->
  result (getIps ips) st <> [] ->
  detectIp conf req = Some addresses ->
  logged (snd (middleware ips conf req st)) =
  app (logged st)
      match result (middleware ips conf req) st with
      | CallNext =>
          if grantsLogged conf
          then ["Access granted to IP address: " ++ Js.join "," addresses]
          else []
      | CallError _ => if denialsLogged conf then [error addresses] else []
      | TypeError => []
      end.
Proof.
  intros Hex Hne Hdetect.
  rewrite (middleware_not_excluded ips conf req Hex), decide_logged, Hdetect.
  destruct (result (getIps ips) st); [now elim Hne | reflexivity].
Qed.

(** X4. The decision taken on an empty rule set is not logged, not even the
    denial under allow. *)
Theorem X4_empty_rule_set_not_logged
  (ips : ruleSource) (conf : settings) (req : request) (st : state) :
  excludedBy conf req = [] ->
  result (getIps ips) st = [] ->
  logged (snd (middleware ips conf req st)) = logged st.
Proof.
  intros Hex Hempty.
  rewrite (middleware_not_excluded ips conf req Hex), decide_logged, Hempty.
  apply app_nil_r.
Qed.

Lemma decide_without_addresses (ips : ruleSource) (conf : settings) (req : request)
  (st : state) :
  result (getIps ips) st <> [] ->
  detectIp conf req = None ->
  decide ips conf req st = (TypeError, snd (getIps ips st)).
Proof.
  unfold result. intros Hne Hdetect. unfold decide. rewrite bind_unfold.
  destruct (fst (getIps ips st)) as [|c rest]; [now elim Hne|].
  change (List.length (c :: rest) =? 0)%nat with false. cbv iota.
  now rewrite Hdetect.
Qed.

(** X5. The logging options change neither the decision nor the number of
    calls of the rule source. *)
Theorem X5_logging_does_not_change_decision
  (ips : ruleSource) (conf : settings) (enabled : bool) (level : Js.value)
  (req : request) (st : state) :
  result (middleware ips (setLogging enabled level conf) req) st =
  result (middleware ips conf req) st /\
  calls (snd (middleware ips (setLogging enabled level conf) req st)) =
  calls (snd (middleware ips conf req st)).
Proof.
  set (conf' := setLogging enabled level conf).
  assert (Hexc : excludedBy conf' req = excludedBy conf req) by reflexivity.
  destruct (excludedBy conf req) as [|p ps] eqn:E.
  - rewrite (middleware_not_excluded ips conf' req Hexc).
    rewrite (middleware_not_excluded ips conf req E).
    destruct (result (getIps ips) st) as [|c rest] eqn:Hrules.
    + unfold result.
      rewrite (decide_empty ips conf' req st Hrules).
      rewrite (decide_empty ips conf req st Hrules). split; reflexivity.
    + assert (Hne : result (getIps ips) st <> []) by (rewrite Hrules; discriminate).
      destruct (detectIp conf req) as [addresses|] eqn:Hdetect.
      * destruct (decide_rules ips conf' req addresses st Hne Hdetect) as [Hr' Hc'].
        destruct (decide_rules ips conf req addresses st Hne Hdetect) as [Hr Hc].
        rewrite Hr', Hr, Hc', Hc. split; reflexivity.
      * unfold result.
        rewrite (decide_without_addresses ips conf' req st Hne Hdetect).
        rewrite (decide_without_addresses ips conf req st Hne Hdetect).
        split; reflexivity.
  - assert (Hp' : excludedBy conf' req <> []) by (rewrite Hexc; discriminate).
    assert (Hp : excludedBy conf req <> []) by (rewrite E; discriminate).
    destruct (middleware_excluded ips conf' req st Hp') as [Hr' Hc'].
    destruct (middleware_excluded ips conf req st Hp) as [Hr Hc].
    rewrite Hr', Hr, Hc', Hc. split; reflexivity.
Qed.

End Logging.

(** ** The address resolver, further *)

Lemma middleware_reads (ips : ruleSource) (conf : settings) (req req' : request)
  {ipUtil : IpUtil} {rangeCheck : RangeCheck} {regExp : RegExpEngine} :
  url req = url req' ->
  detectIp conf req = detectIp conf req' ->
  middleware ips conf req = middleware ips conf req'.
Proof.
  intros Hurl Hdetect. unfold middleware, decide, excludedBy.
  now rewrite Hurl, Hdetect.
Qed.

Section ResolverFurther.

Context {ipUtil : IpUtil} {rangeCheck : RangeCheck} {regExp : RegExpEngine}.

(** X6. With the default options the headers of a request are not read: two
    requests for the same path from the same peer address are decided
    alike. *)
Theorem X6_headers_ignored_by_default
  (ips : ruleSource) (opts : options) (req req' : request) :
  optAllowedHeaders opts = None ->
  optDetectIp opts = None ->
  url req = url req' ->
  remoteAddress req = remoteAddress req' ->
  ipfilter ips opts req = ipfilter ips opts req'.
Proof.
  intros Hallowed Hdetect Hurl Hpeer. unfold ipfilter.
  apply middleware_reads; [exact Hurl|].
  unfold defaults. rewrite Hallowed, Hdetect. simpl.
  unfold getClientIp, candidateAddresses, headerIp. simpl.
  now rewrite Hpeer.
Qed.

(** X7. The [_.reduce] over the allowed headers is a search from the end of
    the list: its result is the value of the last header whose value is not
    loosely equal to [''] (a header the request does not carry counts), and
    [''] when there is none. *)
Theorem X7_header_search_from_the_end (allowed : list string) (req : request) :
  headerIp allowed req =
  match find (fun h => Js.looseNeqEmpty (headers req h)) (rev allowed) with
  | Some h => headers req h
  | None => Js.Str ""
  end.
Proof.
  induction allowed as [|h l IH] using rev_ind; [reflexivity|].
  unfold headerIp in *. rewrite fold_left_app, rev_app_distr. simpl.
  unfold headerStep at 1.
  destruct (Js.looseNeqEmpty (headers req h)); [reflexivity | exact IH].
Qed.

(** X8. When the last allowed header that is not an empty string is one the
    request does not carry, what the headers before it hold is dropped and
    the peer address is the only candidate. *)
Theorem X8_absent_header_falls_back_to_peer
  (pre post : list string) (header : string) (req : request) :
  headers req header = Js.Undefined ->
  (forall h, In h post -> headers req h = Js.Str "") ->
  headerIp (pre ++ header :: post) req = Js.Undefined /\
  candidateAddresses (pre ++ header :: post) req = [remoteAddress req].
Proof.
  intros Habsent Hpost.
  assert (Hh : headerIp (pre ++ header :: post) req = Js.Undefined).
  { unfold headerIp. rewrite fold_left_app. simpl.
    rewrite (headerIp_skips_empty req post _ Hpost).
    unfold headerStep at 1. now rewrite Habsent. }
  split; [exact Hh|]. unfold candidateAddresses. now rewrite Hh.
Qed.

(** X9. When every allowed header comes with an empty value, and so when no
    header is allowed, the peer address is the only candidate. *)
Theorem X9_empty_headers_fall_back_to_peer (allowed : list string) (req : request) :
  (forall h, In h allowed -> headers req h = Js.Str "") ->
  candidateAddresses allowed req = [remoteAddress req] /\
  getClientIp allowed req = mapOpt normalizeIp [remoteAddress req].
Proof.
  intros Hempty.
  assert (Hc : candidateAddresses allowed req = [remoteAddress req]).
  { unfold candidateAddresses, headerIp.
    now rewrite (headerIp_skips_empty req allowed _ Hempty). }
  split; [exact Hc|]. now rewrite getClientIp_maps, Hc.
Qed.

Lemma normalizeIp_without_colon (s : string) :
  Js.indexOf ":" s = (-1)%Z ->
  normalizeIp (Js.Str s) = Some (Js.Str s).
Proof.
  intros Hcolon.
  assert (Hmarker : Js.indexOf "::ffff" s = (-1)%Z).
  { now apply (indexOf_absent_longer ":" ":ffff") in Hcolon. }
  unfold normalizeIp, stripMapped, formatAndContains.
  rewrite contains_test, Hmarker.
  assert (E : (if isV6Format (Js.Str s) then Some (negb (-1 =? -1)%Z) else Some false)
              = Some false) by (destruct (isV6Format (Js.Str s)); reflexivity).
  rewrite E. unfold stripPort, formatAndContains. rewrite contains_test, Hcolon.
  destruct (isV4Format (Js.Str s)); reflexivity.
Qed.

(** X10. A candidate without colon is left as it is, whatever the format
    tests answer. *)
Theorem X10_address_without_colon_unchanged (s : string) :
  Js.indexOf ":" s = (-1)%Z ->
  normalizeIp (Js.Str s) = Some (Js.Str s).
Proof. apply normalizeIp_without_colon. Qed.

Lemma normalizeIp_returns (a : Js.value) :
  isV4Format Js.Undefined = false ->
  isV6Format Js.Undefined = false ->
  exists b, normalizeIp a = Some b.
Proof.
  intros H4 H6.
  assert (Hport : forall x, exists b, stripPort x = Some b).
  { intros [|s]; unfold stripPort, formatAndContains.
    - rewrite H4. now exists Js.Undefined.
    - destruct (isV4Format (Js.Str s)); [|now eexists].
      destruct (Js.truthyNum (Js.bitNot (Js.indexOf ":" s))); now eexists. }
  unfold normalizeIp, stripMapped, formatAndContains. destruct a as [|s].
  - rewrite H6. apply Hport.
  - destruct (isV6Format (Js.Str s)); [|apply Hport].
    destruct (Js.truthyNum (Js.bitNot (Js.indexOf "::ffff" s))); apply Hport.
Qed.

Lemma mapOpt_returns {A B : Type} (f : A -> option B) (l : list A) :
  (forall a, exists b, f a = Some b) ->
  exists out, mapOpt f l = Some out /\ List.length out = List.length l.
Proof.
  intros Hf. induction l as [|a l [out [IH Hlen]]]; simpl.
  - now exists [].
  - destruct (Hf a) as [b Hb]. rewrite Hb, IH. exists (b :: out).
    split; [reflexivity | simpl; now rewrite Hlen].
Qed.

(** X11. When the format tests of the [ip] module answer no on [undefined],
    the resolver of the filter returns: no exception leaves it, and it gives
    one address for each candidate, which may be [undefined]. *)
Theorem X11_own_resolver_returns (allowed : list string) (req : request) :
  isV4Format Js.Undefined = false ->
  isV6Format Js.Undefined = false ->
  exists out,
    getClientIp allowed req = Some out /\
    List.length out = List.length (candidateAddresses allowed req).
Proof.
  intros H4 H6.
  destruct (mapOpt_returns normalizeIp (candidateAddresses allowed req)
              (fun a => normalizeIp_returns a H4 H6)) as [out [Hout Hlen]].
  exists out. split; [now rewrite getClientIp_maps | exact Hlen].
Qed.

End ResolverFurther.

(** ** Splitting a header and joining the addresses *)

Lemma append_length (a b : string) :
  String.length (a ++ b) = String.length a + String.length b.
Proof. induction a as [|c a IH]; simpl; [reflexivity | now rewrite IH]. Qed.

Lemma prefix_decompose (a s : string) :
  String.prefix a s = true -> exists rest, s = a ++ rest.
Proof.
  revert s. induction a as [|x a IH]; intros s H.
  - now exists s.
  - destruct s as [|c s]; simpl in H; [discriminate|].
    destruct (ascii_dec x c) as [->|]; [|discriminate].
    destruct (IH s H) as [rest ->]. now exists rest.
Qed.

Lemma join_cons (sep : string) (a : Js.value) (l : list Js.value) :
  l <> [] -> Js.join sep (a :: l) = Js.show a ++ sep ++ Js.join sep l.
Proof. destruct l; [now intros H; elim H | reflexivity]. Qed.

(** Joining the pieces of a split with the separator gives the string back. *)
Lemma join_splitFrom (sep : string) :
  sep <> "" ->
  forall n s, String.length s <= n ->
  forall cur, Js.join sep (map Js.Str (Js.splitFrom sep s 0 cur)) = cur ++ s.
Proof.
  intros Hsep. induction n as [|n IH]; intros s Hlen cur.
  - destruct s; [|simpl in Hlen; lia]. simpl. now rewrite append_empty_r.
  - destruct s as [|c s]; [simpl; now rewrite append_empty_r|].
    simpl in Hlen. cbn [Js.splitFrom].
    destruct (String.prefix sep (String c s)) eqn:Hp.
    + destruct (prefix_decompose _ _ Hp) as [rest Hrest].
      destruct sep as [|x sep']; [now elim Hsep|].
      simpl in Hrest. injection Hrest as Hc Hs. subst c s.
      replace (String.length (String x sep') - 1) with (String.length sep')
        by (simpl; lia).
      rewrite splitFrom_skip. cbn [map].
      rewrite join_cons.
      * rewrite IH by (rewrite append_length in Hlen; lia).
        reflexivity.
      * pose proof (splitFrom_not_empty (String x sep') rest 0 "") as Hne.
        destruct (Js.splitFrom (String x sep') rest 0 ""); [contradiction | discriminate].
    + rewrite IH by lia. now rewrite append_assoc.
Qed.

Lemma join_split (sep s : string) :
  sep <> "" -> Js.join sep (map Js.Str (Js.split sep s)) = s.
Proof.
  intros Hsep. unfold Js.split.
  now rewrite (join_splitFrom sep Hsep (String.length s) s (le_n _) "").
Qed.

(** A character that a string does not hold is in none of its pieces. *)
Lemma indexOf_char_snoc (c0 c : ascii) (cur : string) :
  c0 <> c ->
  Js.indexOf (String c0 "") cur = (-1)%Z ->
  Js.indexOf (String c0 "") (cur ++ String c "") = (-1)%Z.
Proof.
  intros Hne. induction cur as [|d cur IH]; intros H.
  - simpl. destruct (ascii_dec c0 c); [contradiction | reflexivity].
  - apply indexOf_absent_tail in H. destruct H as [Hp Ht].
    change (String d cur ++ String c "") with (String d (cur ++ String c "")).
    rewrite indexOf_cons, (IH Ht).
    assert (Hp' : String.prefix (String c0 "") (String d (cur ++ String c "")) = false).
    { simpl in *. destruct (ascii_dec c0 d); [|reflexivity].
      now rewrite prefix_empty in Hp. }
    now rewrite Hp'.
Qed.

Lemma splitFrom_pieces_without (c0 : ascii) (sep s : string) :
  forall skip cur,
  Js.indexOf (String c0 "") cur = (-1)%Z ->
  Js.indexOf (String c0 "") s = (-1)%Z ->
  Forall (fun piece => Js.indexOf (String c0 "") piece = (-1)%Z)
         (Js.splitFrom sep s skip cur).
Proof.
  induction s as [|c s IH]; intros skip cur Hcur Hs.
  - constructor; [exact Hcur | constructor].
  - apply indexOf_absent_tail in Hs. destruct Hs as [Hp Ht].
    cbn [Js.splitFrom]. destruct skip as [|k]; [|now apply IH].
    destruct (String.prefix sep (String c s)).
    + constructor; [exact Hcur|]. now apply IH.
    + apply IH; [|exact Ht]. apply indexOf_char_snoc; [|exact Hcur].
      intros ->. simpl in Hp. destruct (ascii_dec c c) as [_|Hne]; [|now elim Hne].
      now rewrite prefix_empty in Hp.
Qed.

Section HeaderRoundTrip.

Context {ipUtil : IpUtil}.

Lemma mapOpt_unchanged (pieces : list string) :
  Forall (fun piece => Js.indexOf ":" piece = (-1)%Z) pieces ->
  mapOpt normalizeIp (map Js.Str pieces) = Some (map Js.Str pieces).
Proof.
  induction 1 as [|piece l Hpiece _ IH]; [reflexivity|].
  simpl. now rewrite (normalizeIp_without_colon piece Hpiece), IH.
Qed.

Lemma winning_header_is_split
  (pre post : list string) (header v : string) (req : request) :
  headers req header = Js.Str v ->
  v <> "" ->
  (forall h, In h post -> headers req h = Js.Str "") ->
  getClientIp (pre ++ header :: post) req
  = mapOpt normalizeIp (map Js.Str (Js.split "," v)).
Proof.
  intros Hv Hne Hpost. rewrite getClientIp_maps. f_equal.
  assert (Hh : headerIp (pre ++ header :: post) req = Js.Str v).
  { unfold headerIp. rewrite fold_left_app. simpl.
    rewrite (headerIp_skips_empty req post _ Hpost).
    unfold headerStep at 1. rewrite Hv. unfold Js.looseNeqEmpty.
    destruct (String.eqb v "") eqn:E; [apply String.eqb_eq in E; contradiction|].
    reflexivity. }
  unfold candidateAddresses. rewrite Hh.
  destruct (splitHeader_not_empty v Hne) as [Heq Hnot]. rewrite Heq in *.
  destruct (map Js.Str (Js.split "," v)); [contradiction | reflexivity].
Qed.

(** X12. A header value without colon that wins the search is split at its
    commas and nothing else is done to it (no trimming, no merging): joined
    again in the message of a denial, the addresses spell the header value as
    it came. *)
Theorem X12_denial_spells_the_header
  (pre post : list string) (header v : string) (req : request) :
  headers req header = Js.Str v ->
  v <> "" ->
  (forall h, In h post -> headers req h = Js.Str "") ->
  Js.indexOf ":" v = (-1)%Z ->
  getClientIp (pre ++ header :: post) req = Some (map Js.Str (Js.split "," v)) /\
  error (map Js.Str (Js.split "," v)) = "Access denied to IP address: " ++ v.
Proof.
  intros Hv Hne Hpost Hcolon. split.
  - rewrite (winning_header_is_split pre post header v req Hv Hne Hpost).
    apply mapOpt_unchanged.
    apply (splitFrom_pieces_without ":"%char "," v 0 ""); [reflexivity | exact Hcolon].
  - unfold error. now rewrite join_split by discriminate.
Qed.

End HeaderRoundTrip.

(** ** The rule set as a whole *)


Lemma existsb_permutation {A : Type} (f : A -> bool) (l l' : list A) :
  Permutation l l' -> existsb f l = existsb f l'.
Proof.
  induction 1 as [|x l l' _ IH|x y l|l l' l'' _ IH1 _ IH2]; simpl.
  - reflexivity.
  - now rewrite IH.
  - destruct (f x), (f y); reflexivity.
  - now rewrite IH1.
Qed.

Lemma forallb_permutation {A : Type} (f : A -> bool) (l l' : list A) :
  Permutation l l' -> forallb f l = forallb f l'.
Proof.
  induction 1 as [|x l l' _ IH|x y l|l l' l'' _ IH1 _ IH2]; simpl.
  - reflexivity.
  - now rewrite IH.
  - destruct (f x), (f y); reflexivity.
  - now rewrite IH1.
Qed.

Lemma existsb_incl {A : Type} (f : A -> bool) (l l' : list A) :
  incl l l' -> existsb f l = true -> existsb f l' = true.
Proof.
  intros Hincl H. apply existsb_exists in H. destruct H as [x [Hin Hx]].
  apply existsb_exists. exists x. split; [now apply Hincl | exact Hx].
Qed.

Section RuleSet.

Context {ipUtil : IpUtil} {rangeCheck : RangeCheck} {regExp : RegExpEngine}.

Lemma testIp_ruleResult (ips : ruleSource) (rules : list token) (c : token)
  (ip : Js.value) (mode : string) (st : state) :
  stable ips rules ->
  fst (testIp ips c ip mode st) = ruleResult (existsb (rangeFilter ip) rules) ip mode c.
Proof.
  intros Hstable. destruct c as [s|l|]; try reflexivity.
  fold (result (testIp ips (TArray l) ip mode) st). rewrite testIp_array.
  unfold result. now rewrite (testRange_result ips rules Hstable).
Qed.

(** With a stable rule source, [matchClientIp] as a function of the rules. *)
Lemma matchClientIp_ruleResult (ips : ruleSource) (rules : list token)
  (conf : settings) (ip : Js.value) (st : state) :
  stable ips rules ->
  result (matchClientIp ips conf ip) st =
  let lower := Js.toLowerCase (mode conf) in
  let verdict c :=
    Js.truthyRes (ruleResult (existsb (rangeFilter ip) rules) ip lower c) in
  if String.eqb lower "allow" then existsb verdict rules else forallb verdict rules.
Proof.
  intros Hstable. rewrite matchClientIp_combines. cbv zeta. unfold result.
  rewrite (invokeTestIp_result ips rules Hstable ip _ st st).
  unfold Js.some, Js.every.
  assert (E : map (fun c => fst (testIp ips c ip (Js.toLowerCase (mode conf)) st)) rules
              = map (ruleResult (existsb (rangeFilter ip) rules) ip
                       (Js.toLowerCase (mode conf))) rules).
  { apply map_ext. intros c. now apply testIp_ruleResult. }
  rewrite E. clear E Hstable.
  generalize (existsb (rangeFilter ip) rules). intros member.
  destruct (String.eqb (Js.toLowerCase (mode conf)) "allow");
    induction rules as [|c l IH]; simpl; try reflexivity; now rewrite IH.
Qed.





(** X15. A rule that is neither a string nor an array gives no result: under
    deny, and under any mode but allow, its presence makes every address fail
    the rules. *)
Theorem X15_shapeless_rule_fails_every_address
  (ips : ruleSource) (rules : list token) (conf : settings)
  (ip : Js.value) (st : state) :
  stable ips rules ->
  In TOther rules ->
  Js.toLowerCase (mode conf) <> "allow" ->
  result (matchClientIp ips conf ip) st = false.
Proof.
  intros Hstable Hin Ha. apply String.eqb_neq in Ha.
  rewrite (matchClientIp_ruleResult ips rules conf ip st Hstable). cbv zeta.
  rewrite Ha.
  destruct (forallb _ rules) eqn:E; [|reflexivity].
  apply (proj1 (forallb_forall _ _) E) in Hin. discriminate.
Qed.

Lemma rangeFilter_two_bounds (ip : Js.value) (lo hi : string) (more : list string) :
  rangeFilter ip (TArray (lo :: hi :: more)) =
  ((toLong (Js.Str lo) <=? toLong ip)%Z && (toLong ip <=? toLong (Js.Str hi))%Z)%bool.
Proof. reflexivity. Qed.

(** X16. A rule that matches decides: when a string rule holds the address
    (it is equal to it, or it is a valid block that contains it), or an array
    rule of two bounds or more has the address between its first two bounds,
    the address passes under allow and fails under deny, whatever the other
    rules. The bounds are included; elements after the second are not
    read. *)
Theorem X16_a_matching_rule_decides
  (ips : ruleSource) (rules : list token) (conf : settings) (m : Mode)
  (ip : Js.value) (c : token) (st : state) :
  stable ips rules ->
  Js.toLowerCase (mode conf) = modeName m ->
  In c rules ->
  match c with
  | TString s => (if validRange s then inRange ip s else Js.strictEq ip (Js.Str s)) = true
  | TArray (lo :: hi :: _) =>
      (toLong (Js.Str lo) <= toLong ip <= toLong (Js.Str hi))%Z
  | _ => False
  end ->
  result (matchClientIp ips conf ip) st = isAllow m.
Proof.
  intros Hstable Hmode Hin Hmatch.
  rewrite (matchClientIp_ruleResult ips rules conf ip st Hstable). cbv zeta.
  rewrite Hmode.
  assert (Hc : Js.truthyRes
                 (ruleResult (existsb (rangeFilter ip) rules) ip (modeName m) c)
               = isAllow m).
  { destruct c as [s|[|lo [|hi l]]|]; try contradiction.
    - simpl. unfold testCidrBlock, testExplicitIp.
      destruct (validRange s); rewrite Hmatch; destruct m; reflexivity.
    - assert (Hmember : existsb (rangeFilter ip) rules = true).
      { apply existsb_exists. exists (TArray (lo :: hi :: l)). split; [exact Hin|].
        rewrite rangeFilter_two_bounds. destruct Hmatch as [H1 H2].
        apply Z.leb_le in H1. apply Z.leb_le in H2. now rewrite H1, H2. }
      simpl. rewrite Hmember. destruct m; reflexivity. }
  destruct m; simpl modeName in *; simpl String.eqb; cbv iota; simpl isAllow in *.
  - apply existsb_exists. exists c. now split.
  - destruct (forallb _ rules) eqn:E; [|reflexivity].
    apply (proj1 (forallb_forall _ _) E) in Hin. congruence.
Qed.


(** X18. The order of the rules does not matter. *)
Theorem X18_rule_order_is_irrelevant
  (ips ips' : ruleSource) (rules rules' : list token) (conf : settings)
  (ip : Js.value) (st st' : state) :
  stable ips rules ->
  stable ips' rules' ->
  Permutation rules rules' ->
  result (matchClientIp ips conf ip) st = result (matchClientIp ips' conf ip) st'.
Proof.
  intros Hstable Hstable' Hperm.
  rewrite (matchClientIp_ruleResult ips rules conf ip st Hstable).
  rewrite (matchClientIp_ruleResult ips' rules' conf ip st' Hstable'). cbv zeta.
  rewrite (existsb_permutation (rangeFilter ip) rules rules' Hperm).
  destruct (String.eqb (Js.toLowerCase (mode conf)) "allow").
  - now apply existsb_permutation.
  - now apply forallb_permutation.
Qed.

(** X19. Under allow, adding rules takes access from nobody: an address that
    passes a rule set passes every rule set that contains it. *)
Theorem X19_allow_grows_with_the_rules
  (ips ips' : ruleSource) (rules rules' : list token) (conf : settings)
  (ip : Js.value) (st st' : state) :
  stable ips rules ->
  stable ips' rules' ->
  incl rules rules' ->
  Js.toLowerCase (mode conf) = "allow" ->
  result (matchClientIp ips conf ip) st = true ->
  result (matchClientIp ips' conf ip) st' = true.
Proof.
  intros Hstable Hstable' Hincl Hmode.
  rewrite (matchClientIp_ruleResult ips rules conf ip st Hstable).
  rewrite (matchClientIp_ruleResult ips' rules' conf ip st' Hstable'). cbv zeta.
  rewrite Hmode. simpl String.eqb. cbv iota. intros H.
  apply existsb_exists in H. destruct H as [c [Hin Hc]].
  apply existsb_exists. exists c. split; [now apply Hincl|].
  destruct c as [s|l|]; [exact Hc | | discriminate].
  simpl in *. destruct (existsb (rangeFilter ip) rules) eqn:E; [|discriminate].
  now rewrite (existsb_incl _ rules rules' Hincl E).
Qed.

(** X20. Under deny, adding rules gives access to nobody: an address that
    passes a rule set passes every rule set contained in it. *)
Theorem X20_deny_shrinks_with_the_rules
  (ips ips' : ruleSource) (rules rules' : list token) (conf : settings)
  (ip : Js.value) (st st' : state) :
  stable ips rules ->
  stable ips' rules' ->
  incl rules rules' ->
  Js.toLowerCase (mode conf) = "deny" ->
  result (matchClientIp ips' conf ip) st' = true ->
  result (matchClientIp ips conf ip) st = true.
Proof.
  intros Hstable Hstable' Hincl Hmode.
  rewrite (matchClientIp_ruleResult ips rules conf ip st Hstable).
  rewrite (matchClientIp_ruleResult ips' rules' conf ip st' Hstable'). cbv zeta.
  rewrite Hmode. simpl String.eqb. cbv iota. intros H.
  apply forallb_forall. intros c Hin.
  pose proof (proj1 (forallb_forall _ _) H c (Hincl c Hin)) as Hc.
  destruct c as [s|l|]; [exact Hc | | discriminate].
  simpl in *. destruct (existsb (rangeFilter ip) rules) eqn:E; [|reflexivity].
  now rewrite (existsb_incl _ rules rules' Hincl E) in Hc.
Qed.

End RuleSet.

(** ** Decisions in a row *)

Section Repeated.

Context {ipUtil : IpUtil} {rangeCheck : RangeCheck} {regExp : RegExpEngine}.

(** X21. With a rule source that always gives the same rules, the decision on
    a request does not depend on what was decided or logged before: the same
    request gets the same decision again. *)
Theorem X21_same_request_same_decision
  (ips : ruleSource) (rules : list token) (conf : settings) (req : request)
  (st st' : state) :
  stable ips rules ->
  result (middleware ips conf req) st = result (middleware ips conf req) st' /\
  result (middleware ips conf req) (snd (middleware ips conf req st))
  = result (middleware ips conf req) st.
Proof.
  intros Hstable.
  assert (H : forall s s', result (middleware ips conf req) s
                           = result (middleware ips conf req) s').
  { intros s s'. destruct (excludedBy conf req) as [|p ps] eqn:E.
    - rewrite (middleware_not_excluded ips conf req E).
      destruct rules as [|c rest] eqn:Hrules.
      + unfold result. rewrite !decide_empty by (unfold result; apply Hstable).
        reflexivity.
      + assert (Hne : forall s0, result (getIps ips) s0 <> []).
        { intros s0. unfold result. rewrite Hstable. discriminate. }
        destruct (detectIp conf req) as [addresses|] eqn:Hdetect.
        * destruct (decide_rules ips conf req addresses s (Hne s) Hdetect) as [Hr _].
          destruct (decide_rules ips conf req addresses s' (Hne s') Hdetect) as [Hr' _].
          rewrite Hr, Hr'.
          now rewrite (mapM_matchClientIp ips _ conf addresses _ initial Hstable),
                      (mapM_matchClientIp ips _ conf addresses _ initial Hstable).
        * unfold result.
          now rewrite (decide_without_addresses ips conf req s (Hne s) Hdetect),
                      (decide_without_addresses ips conf req s' (Hne s') Hdetect).
    - assert (Hp : excludedBy conf req <> []) by (rewrite E; discriminate).
      destruct (middleware_excluded ips conf req s Hp) as [Hr _].
      destruct (middleware_excluded ips conf req s' Hp) as [Hr' _].
      now rewrite Hr, Hr'. }
  split; apply H.
Qed.

End Repeated.

(** ** The further properties at work on the stand-ins *)

Section FurtherOnStandIns.

Existing Instance Sample.ipUtil.
Existing Instance Sample.rangeCheck.
Existing Instance Sample.regExp.

Lemma X1_status_page_open_to_all :
  Sample.run (Static [])
    (mkOptions (Some "allow") None None None (Some ["/status"]) None)
    (Sample.requestFrom "8.8.8.8" "/status" []) = CallNext.
Proof.
  apply (X1_excluded_path_bypasses (Static [])
           (defaults (mkOptions (Some "allow") None None None (Some ["/status"]) None))
           (Sample.requestFrom "8.8.8.8" "/status" []) initial).
  vm_compute. discriminate.
Defined.

Lemma X2_denial_without_log :
  logged (snd (ipfilter (Static [TString "127.0.0.1"])
                 (mkOptions (Some "allow") (Some false) None None None None)
                 (Sample.requestFrom "8.8.8.8" "/" []) initial)) = [].
Proof.
  apply (X2_silent_when_log_is_off (Static [TString "127.0.0.1"])
           (defaults (mkOptions (Some "allow") (Some false) None None None None))
           (Sample.requestFrom "8.8.8.8" "/" []) initial).
  reflexivity.
Defined.

Lemma X3_denial_logged :
  logged (snd (ipfilter (Static [TString "127.0.0.1"]) (Sample.withMode "allow")
                 (Sample.requestFrom "8.8.8.8" "/" []) initial))
  = ["Access denied to IP address: 8.8.8.8"].
Proof.
  unfold ipfilter.
  rewrite (X3_decision_logged_once (Static [TString "127.0.0.1"])
             (defaults (Sample.withMode "allow"))
             (Sample.requestFrom "8.8.8.8" "/" []) [Js.Str "8.8.8.8"] initial).
  - vm_compute. reflexivity.
  - reflexivity.
  - discriminate.
  - reflexivity.
Defined.

Lemma X4_sentinel_denial_not_logged :
  Sample.run (Static []) (Sample.withMode "allow") (Sample.requestFrom "8.8.8.8" "/" [])
  = CallError [Js.Str "0.0.0.0/0"] /\
  logged (snd (ipfilter (Static []) (Sample.withMode "allow")
                 (Sample.requestFrom "8.8.8.8" "/" []) initial)) = [].
Proof.
  split; [reflexivity|].
  apply (X4_empty_rule_set_not_logged (Static []) (defaults (Sample.withMode "allow"))
           (Sample.requestFrom "8.8.8.8" "/" []) initial); reflexivity.
Defined.

Lemma X6_forged_header_ignored :
  Sample.run (Static [TString "127.0.0.1"]) (Sample.withMode "allow")
             (Sample.requestFrom "8.8.8.8" "/" [("x-forwarded-for", "127.0.0.1")])
  = Sample.run (Static [TString "127.0.0.1"]) (Sample.withMode "allow")
               (Sample.requestFrom "8.8.8.8" "/" []).
Proof.
  unfold Sample.run.
  rewrite (X6_headers_ignored_by_default (Static [TString "127.0.0.1"])
             (Sample.withMode "allow")
             (Sample.requestFrom "8.8.8.8" "/" [("x-forwarded-for", "127.0.0.1")])
             (Sample.requestFrom "8.8.8.8" "/" []));
    reflexivity.
Defined.

Lemma X8_second_header_missing :
  candidateAddresses ["x-forwarded-for"; "x-real-ip"]
    (Sample.requestFrom "10.0.0.7" "/" [("x-forwarded-for", "1.1.1.1")])
  = [Js.Str "10.0.0.7"].
Proof.
  apply (X8_absent_header_falls_back_to_peer ["x-forwarded-for"] [] "x-real-ip"
           (Sample.requestFrom "10.0.0.7" "/" [("x-forwarded-for", "1.1.1.1")])).
  - reflexivity.
  - intros h [].
Defined.

Lemma X9_empty_forwarded_header :
  getClientIp ["x-forwarded-for"] (Sample.forwarded "10.0.0.7" "/" "")
  = Some [Js.Str "10.0.0.7"].
Proof.
  destruct (X9_empty_headers_fall_back_to_peer ["x-forwarded-for"]
              (Sample.forwarded "10.0.0.7" "/" "")) as [_ H].
  - intros h [<-|[]]. reflexivity.
  - rewrite H. vm_compute. reflexivity.
Defined.

Lemma X10_dotted_quad_unchanged :
  normalizeIp (Js.Str "10.0.0.5") = Some (Js.Str "10.0.0.5").
Proof. apply X10_address_without_colon_unchanged. reflexivity. Defined.

Lemma X11_marker_without_colon_resolved :
  getClientIp [] (Sample.requestFrom "1::ffff" "/" []) <> None.
Proof.
  destruct (X11_own_resolver_returns [] (Sample.requestFrom "1::ffff" "/" []))
    as [out [H _]].
  - reflexivity.
  - reflexivity.
  - rewrite H. discriminate.
Defined.

Lemma X12_spaces_are_kept :
  getClientIp ["x-forwarded-for"] (Sample.forwarded "10.0.0.7" "/" "1.1.1.1, 2.2.2.2")
  = Some [Js.Str "1.1.1.1"; Js.Str " 2.2.2.2"] /\
  error [Js.Str "1.1.1.1"; Js.Str " 2.2.2.2"]
  = "Access denied to IP address: 1.1.1.1, 2.2.2.2".
Proof.
  apply (X12_denial_spells_the_header [] [] "x-forwarded-for" "1.1.1.1, 2.2.2.2"
           (Sample.forwarded "10.0.0.7" "/" "1.1.1.1, 2.2.2.2")).
  - reflexivity.
  - discriminate.
  - intros h [].
  - reflexivity.
Defined.



Lemma X15_number_among_the_rules :
  result (matchClientIp (Static [TString "10.0.0.1"; TOther])
            (defaults (Sample.withMode "deny")) (Js.Str "127.0.0.1")) initial = false.
Proof.
  apply (X15_shapeless_rule_fails_every_address (Static [TString "10.0.0.1"; TOther])
           [TString "10.0.0.1"; TOther]).
  - intros st. reflexivity.
  - right. left. reflexivity.
  - vm_compute. discriminate.
Defined.

Lemma X16_upper_bound_is_inside :
  result (matchClientIp (Static [TString "127.0.0.1"; TArray ["10.0.0.1"; "10.0.0.10"]])
            (defaults (Sample.withMode "allow")) (Js.Str "10.0.0.10")) initial = true.
Proof.
  apply (X16_a_matching_rule_decides
           (Static [TString "127.0.0.1"; TArray ["10.0.0.1"; "10.0.0.10"]])
           [TString "127.0.0.1"; TArray ["10.0.0.1"; "10.0.0.10"]]
           (defaults (Sample.withMode "allow")) Allow (Js.Str "10.0.0.10")
           (TArray ["10.0.0.1"; "10.0.0.10"]) initial).
  - intros st. reflexivity.
  - reflexivity.
  - right. left. reflexivity.
  - vm_compute. split; discriminate.
Defined.


Lemma X18_two_rules_swapped :
  result (matchClientIp (Static [TString "127.0.0.1"; TArray ["10.0.0.1"; "10.0.0.10"]])
            (defaults (Sample.withMode "deny")) (Js.Str "10.0.0.5")) initial
  = result (matchClientIp (Static [TArray ["10.0.0.1"; "10.0.0.10"]; TString "127.0.0.1"])
              (defaults (Sample.withMode "deny")) (Js.Str "10.0.0.5")) initial.
Proof.
  apply (X18_rule_order_is_irrelevant
           (Static [TString "127.0.0.1"; TArray ["10.0.0.1"; "10.0.0.10"]])
           (Static [TArray ["10.0.0.1"; "10.0.0.10"]; TString "127.0.0.1"])
           [TString "127.0.0.1"; TArray ["10.0.0.1"; "10.0.0.10"]]
           [TArray ["10.0.0.1"; "10.0.0.10"]; TString "127.0.0.1"]).
  - intros st. reflexivity.
  - intros st. reflexivity.
  - apply perm_swap.
Defined.

Lemma X19_one_more_allowed_address :
  result (matchClientIp (Static [TString "127.0.0.1"; TString "10.0.0.5"])
            (defaults (Sample.withMode "allow")) (Js.Str "127.0.0.1")) initial = true.
Proof.
  apply (X19_allow_grows_with_the_rules (Static [TString "127.0.0.1"])
           (Static [TString "127.0.0.1"; TString "10.0.0.5"])
           [TString "127.0.0.1"] [TString "127.0.0.1"; TString "10.0.0.5"]
           (defaults (Sample.withMode "allow")) (Js.Str "127.0.0.1") initial initial).
  - intros st. reflexivity.
  - intros st. reflexivity.
  - intros c [<-|[]]. left. reflexivity.
  - reflexivity.
  - vm_compute. reflexivity.
Defined.

Lemma X20_one_denied_address_less :
  result (matchClientIp (Static [TString "127.0.0.1"])
            (defaults (Sample.withMode "deny")) (Js.Str "8.8.8.8")) initial = true.
Proof.
  apply (X20_deny_shrinks_with_the_rules (Static [TString "127.0.0.1"])
           (Static [TString "127.0.0.1"; TString "10.0.0.5"])
           [TString "127.0.0.1"] [TString "127.0.0.1"; TString "10.0.0.5"]
           (defaults (Sample.withMode "deny")) (Js.Str "8.8.8.8") initial initial).
  - intros st. reflexivity.
  - intros st. reflexivity.
  - intros c [<-|[]]. left. reflexivity.
  - reflexivity.
  - vm_compute. reflexivity.
Defined.

Lemma X21_second_decision_like_the_first :
  result (ipfilter (constantCallback [TString "127.0.0.1"]) (Sample.withMode "allow")
            (Sample.requestFrom "8.8.8.8" "/" []))
         (snd (ipfilter (constantCallback [TString "127.0.0.1"]) (Sample.withMode "allow")
                 (Sample.requestFrom "8.8.8.8" "/" []) initial))
  = result (ipfilter (constantCallback [TString "127.0.0.1"]) (Sample.withMode "allow")
              (Sample.requestFrom "8.8.8.8" "/" [])) initial.
Proof.
  apply (X21_same_request_same_decision (constantCallback [TString "127.0.0.1"])
           [TString "127.0.0.1"] (defaults (Sample.withMode "allow"))
           (Sample.requestFrom "8.8.8.8" "/" []) initial initial).
  intros st. reflexivity.
Defined.

End FurtherOnStandIns.
